(** * The HTTP/SSE gateway of the Zammad MCP server

    A shallow embedding of [mcp_zammad/http_server.py]: the unary endpoint
    [POST /mcp/call], the streaming endpoint [POST /mcp/stream], the generic
    method handler and the capability adapters over the RPC core.  The RPC
    core ([self.mcp_server.mcp]) is an external collaborator; it is a
    parameter of the development. *)

From Stdlib Require Import ZArith String Ascii List Bool.
From Stdlib Require Import Numbers.DecimalString Floats.SpecFloat.
From stdpp Require Import base option gmap strings list fin_maps.

Local Open Scope string_scope.
Local Open Scope Z_scope.

Set Warnings "-register-all".

(** ** Python values *)

Module Py.

(** The values that travel through the gateway.  [VObj] is an instance of a
    class (a pydantic model, a content object of the core, ...): such a value
    is not JSON-encodable, has a [__dict__], a [str()] and possibly the
    methods [model_dump] and [dict]. *)
Inductive value : Type :=
  | VNone
  | VBool (b : bool)
  | VInt (n : Z)
  | VFloat (f : spec_float)
  | VStr (s : string)
  | VList (l : list value)
  | VDict (d : gmap string value)
  | VObj (o_str : string) (o_dict : option (gmap string value))
         (o_model_dump : option value) (o_dict_method : option value).

(** [bool(v)], the truth value Python gives [v]. *)
Definition truthy (v : value) : bool :=
  match v with
  | VNone => false
  | VBool b => b
  | VInt n => negb (n =? 0)
  | VFloat f => match f with S754_zero _ => false | _ => true end
  | VStr s => negb (String.eqb s "")
  | VList l => match l with [] => false | _ => true end
  | VDict d => negb (bool_decide (d = ∅))
  | VObj _ _ _ _ => true
  end.

(** [x or d] *)
Definition or_ (x d : value) : value := if truthy x then x else d.

(** [hasattr(v, 'model_dump')], [hasattr(v, 'dict')], [hasattr(v, '__dict__')] *)
Definition model_dump (v : value) : option value :=
  match v with VObj _ _ md _ => md | _ => None end.

Definition dict_method (v : value) : option value :=
  match v with VObj _ _ _ dm => dm | _ => None end.

Definition dunder_dict (v : value) : option value :=
  match v with VObj _ (Some d) _ _ => Some (VDict d) | _ => None end.

(** [s.startswith(p)] *)
Definition startswith (s p : string) : bool := String.prefix p s.

(** [s.replace(old, new)] for a non-empty [old]: the occurrences of [old] are
    found from the left and do not overlap; each is replaced by [new].
    [skip] counts the characters of a match that are still to be passed
    over. *)
Fixpoint replace_from (old new : string) (skip : nat) (s : string) : string :=
  match s with
  | EmptyString => EmptyString
  | String c s' =>
      match skip with
      | S k => replace_from old new k s'
      | O =>
          if String.prefix old s
          then new ++ replace_from old new (Nat.pred (String.length old)) s'
          else String c (replace_from old new O s')
      end
  end.

(** For an empty [old], Python puts [new] before every character and at the
    end. *)
Fixpoint intersperse_all (new s : string) : string :=
  match s with
  | EmptyString => new
  | String c s' => new ++ String c (intersperse_all new s')
  end.

Definition replace (s old new : string) : string :=
  match old with
  | EmptyString => intersperse_all new s
  | String _ _ => replace_from old new O s
  end.

(** [str(n)] for an integer *)
Definition str_int (n : Z) : string := NilZero.string_of_int (Z.to_int n).

(** [needle in hay] *)
Fixpoint contains (hay needle : string) : bool :=
  String.prefix needle hay ||
  match hay with
  | EmptyString => false
  | String _ hay' => contains hay' needle
  end.

(** [s.lower()] on ASCII letters *)
Definition lower_ascii (c : ascii) : ascii :=
  let n := nat_of_ascii c in
  if (Nat.leb 65 n && Nat.leb n 90)%bool then ascii_of_nat (n + 32) else c.

Fixpoint lower (s : string) : string :=
  match s with
  | EmptyString => EmptyString
  | String c s' => String (lower_ascii c) (lower s')
  end.

(** [s.split(sep)] for a non-empty [sep] (an empty one makes Python raise;
    the gateway splits on a brace only): the pieces between the occurrences
    of [sep], found from the left without overlap.  [cur] is the piece being
    read. *)
Fixpoint split_from (sep : string) (skip : nat) (cur : string) (s : string)
  : list string :=
  match s with
  | EmptyString => [cur]
  | String c s' =>
      match skip with
      | S k => split_from sep k cur s'
      | O =>
          if String.prefix sep s
          then cur :: split_from sep (Nat.pred (String.length sep)) EmptyString s'
          else split_from sep O (cur ++ String c EmptyString) s'
      end
  end.

Definition split (s sep : string) : list string := split_from sep O EmptyString s.

(** [s.index(sub)]: the position of the first occurrence; [None] stands for
    the [ValueError] of Python when there is none. *)
Fixpoint index (s sub : string) : option nat :=
  if String.prefix sub s then Some O
  else match s with
       | EmptyString => None
       | String _ s' => option_map S (index s' sub)
       end.

(** [s[a:b]] and [s[a:]] for indices that are not negative. *)
Definition slice (s : string) (a b : nat) : string := String.substring a (b - a) s.

Definition slice_from (s : string) (a : nat) : string :=
  String.substring a (String.length s - a) s.

(** [json.dumps(v)] raises [TypeError] on a value that has an object inside;
    the standard types are encodable. *)
Fixpoint json_encodable (v : value) : bool :=
  match v with
  | VList l => forallb json_encodable l
  | VDict d => map_fold (fun _ x acc => json_encodable x && acc) true d
  | VObj _ _ _ _ => false
  | _ => true
  end.

(** [json.dumps(v, default=str)] encodes [str(o)] in the place of every
    object [o]. *)
Fixpoint json_default_str (v : value) : value :=
  match v with
  | VList l => VList (map json_default_str l)
  | VDict d => VDict (json_default_str <$> d)
  | VObj s _ _ _ => VStr s
  | _ => v
  end.

End Py.

Import Py.

(** ** Exceptions and outcomes *)

(** The exceptions the gateway raises itself, and [OtherError] for any other
    [Exception] raised by the core. *)
Inductive exn : Type :=
  | HTTPException (status_code : Z) (detail : string)
  | ValueError (msg : string)
  | TypeError (msg : string)
  | OtherError (msg : string).

(** [str(e)].  Starlette's [HTTPException.__str__] prints the status code and
    the detail. *)
Definition str_exn (e : exn) : string :=
  match e with
  | HTTPException c d => str_int c ++ ": " ++ d
  | ValueError m | TypeError m | OtherError m => m
  end.

Inductive res (A : Type) : Type :=
  | Ok (a : A)
  | Raise (e : exn).
Arguments Ok {A} a.
Arguments Raise {A} e.

(** One outcome after the other: the first exception ends the sequence. *)
Definition and_then {A B} (o : res A) (k : A -> res B) : res B :=
  match o with
  | Ok a => k a
  | Raise e => Raise e
  end.

(** ** The RPC core and the runtime *)

(** What [list_tools], [list_resources], [list_prompts] and [read_resource]
    of the core hand back; an attribute the core leaves out is [VNone]. *)
Record tool_like := {
  tool_name : value;
  tool_description : value;
  tool_inputSchema : value }.

Record resource_like := {
  resource_uri : value;
  resource_name : value;
  resource_description : value;
  resource_mimeType : value }.

(** [prompt_arguments] is [None] when the prompt has no such attribute. *)
Record prompt_like := {
  prompt_name : value;
  prompt_description : value;
  prompt_arguments : option value }.

Record resource_contents := {
  contents_mimeType : value;
  contents_text : value }.

(** The core owns a state of type [St]; each of its operations returns or
    raises, and leaves a new state.  [uuid4] draws the session identifier;
    [py_repr] is [str()] on the values whose text the model does not fix.
    [dump_error] is the exception of [model_dump()], or else [dict()], of
    an object, if that call raises.  The last three fields say what the
    encoders do with a value that is not a tree of JSON values:
    [dumps_error] is the exception of [json.dumps], [dumps_default_error]
    the exception of [json.dumps] with [default=str], if it raises ([str()]
    of an object that raises, a key that JSON does not take, a cycle), and
    [response_encodes] tells whether FastAPI can encode the value in a
    response. *)
Record Core (St : Type) := {
  list_tools : St -> res (list tool_like) * St;
  list_resources : St -> res (list resource_like) * St;
  list_prompts : St -> res (list prompt_like) * St;
  call_tool : value -> value -> St -> res value * St;
  read_resource : string -> St -> res resource_contents * St;
  get_prompt : string -> value -> St -> res value * St;
  uuid4 : St -> string * St;
  py_repr : value -> string;
  dump_error : value -> option exn;
  dumps_error : value -> exn;
  dumps_default_error : value -> option exn;
  response_encodes : value -> bool }.
Arguments list_tools {St}.
Arguments list_resources {St}.
Arguments list_prompts {St}.
Arguments call_tool {St}.
Arguments read_resource {St}.
Arguments get_prompt {St}.
Arguments uuid4 {St}.
Arguments py_repr {St}.
Arguments dump_error {St}.
Arguments dumps_error {St}.
Arguments dumps_default_error {St}.
Arguments response_encodes {St}.

(** The invocations of the core, as they are recorded in the world. *)
Inductive core_call : Type :=
  | CListTools
  | CListResources
  | CListPrompts
  | CCallTool (name : value) (arguments : value)
  | CReadResource (uri : string)
  | CGetPrompt (name : string) (arguments : value).

(** ** Server-sent events *)

Inductive event_type : Type := Connected | Result | Error | Done.

(** [ev_data] is the value whose JSON text follows [data:]. *)
Record event := { ev_type : event_type; ev_data : value }.

Definition event_type_eqb (a b : event_type) : bool :=
  match a, b with
  | Connected, Connected | Result, Result | Error, Error | Done, Done => true
  | _, _ => false
  end.

(** ** The world and the monad of handlers *)

Record world (St : Type) := {
  core_state : St;
  calls : list core_call;
  error_log : list string;
  emitted : list event }.
Arguments core_state {St}.
Arguments calls {St}.
Arguments error_log {St}.
Arguments emitted {St}.

Definition M (St A : Type) : Type := world St -> res A * world St.

Definition ret {St A} (a : A) : M St A := fun w => (Ok a, w).

Definition bind {St A B} (m : M St A) (k : A -> M St B) : M St B :=
  fun w =>
    match m w with
    | (Ok a, w') => k a w'
    | (Raise e, w') => (Raise e, w')
    end.

Definition raise {St A} (e : exn) : M St A := fun w => (Raise e, w).

(** An outcome that is computed without the world. *)
Definition lift {St A} (o : res A) : M St A := fun w => (o, w).

(** [try: body except Exception as e: handler(e)] *)
Definition try_except {St A} (body : M St A) (handler : exn -> M St A) : M St A :=
  fun w =>
    match body w with
    | (Ok a, w') => (Ok a, w')
    | (Raise e, w') => handler e w'
    end.

Declare Scope gw_scope.
Delimit Scope gw_scope with gw.
Notation "x <- m ;; k" := (bind m (fun x => k))
  (at level 100, m at next level, right associativity) : gw_scope.
Notation "m ;;; k" := (bind m (fun _ => k))
  (at level 100, right associativity) : gw_scope.
Local Open Scope gw_scope.

(** The three ways a handler changes the world. *)
Definition record_call {St} (c : core_call) (s' : St) (w : world St) : world St :=
  {| core_state := s'; calls := calls w ++ [c];
     error_log := error_log w; emitted := emitted w |}.

Definition record_error {St} (msg : string) (w : world St) : world St :=
  {| core_state := core_state w; calls := calls w;
     error_log := error_log w ++ [msg]; emitted := emitted w |}.

Definition record_event {St} (ev : event) (w : world St) : world St :=
  {| core_state := core_state w; calls := calls w;
     error_log := error_log w; emitted := emitted w ++ [ev] |}.

(** [logger.error(msg)] *)
Definition log_error {St} (msg : string) : M St unit :=
  fun w => (Ok tt, record_error msg w).

(** [yield] of one event of the stream *)
Definition yield {St} (t : event_type) (data : value) : M St unit :=
  fun w => (Ok tt, record_event {| ev_type := t; ev_data := data |} w).

(** An awaited operation of the core: the call is recorded, the core moves
    to its new state, and the outcome is the core's. *)
Definition invoke {St A} (c : core_call) (op : St -> res A * St) : M St A :=
  fun w =>
    let '(r, s') := op (core_state w) in
    (r, record_call c s' w).

(** [str(uuid.uuid4())] *)
Definition fresh_uuid {St} (core : Core St) : M St string :=
  fun w =>
    let '(u, s') := uuid4 core (core_state w) in
    (Ok u, {| core_state := s'; calls := calls w;
              error_log := error_log w; emitted := emitted w |}).

(** [json.dumps(v)] and [json.dumps(v, default=str)].  A tree of JSON values
    is encoded.  On another value the first raises; the second raises when
    the runtime says so, and otherwise encodes the text of every object. *)
Definition json_dumps {St} (core : Core St) (v : value) : M St value :=
  if json_encodable v then ret v
  else raise (dumps_error core v).

Definition json_dumps_default_str {St} (core : Core St) (v : value) : M St value :=
  if json_encodable v then ret v
  else match dumps_default_error core v with
       | Some e => raise e
       | None => ret (json_default_str v)
       end.

(** ** Requests and responses *)

Record MCPRequest := {
  method : string;
  params : option (gmap string value) }.

(** Both fields default to [None]. *)
Record MCPResponse := {
  result : value;
  error : option (gmap string value) }.

(** [request.params or {}] *)
Definition params_or_empty (p : option (gmap string value)) : gmap string value :=
  match p with
  | Some d => if bool_decide (d = ∅) then ∅ else d
  | None => ∅
  end.

(** [d.get(k)] and [d.get(k, dflt)] *)
Definition dict_get (d : gmap string value) (k : string) (dflt : value) : value :=
  match d !! k with Some v => v | None => dflt end.

(** The text of a value inside an f-string. *)
Definition str_value {St} (core : Core St) (v : value) : string :=
  match v with
  | VStr s => s
  | VNone => "None"
  | VBool true => "True"
  | VBool false => "False"
  | VInt n => str_int n
  | VObj s _ _ _ => s
  | _ => py_repr core v
  end.

(** ** The gateway: [HTTPMCPServer] *)

Section Gateway.

Context {St : Type} (core : Core St).

(** *** Capability adapters *)

Definition _list_tools : M St value :=
  tools_list <- invoke CListTools (list_tools core) ;;
  ret (VDict {[ "tools" := VList (map (fun tool =>
         VDict {[ "name" := tool_name tool;
                  "description" := or_ (tool_description tool) (VStr "");
                  "inputSchema" := or_ (tool_inputSchema tool) (VDict ∅) ]})
       tools_list) ]}).

Definition _list_resources : M St value :=
  resources_list <- invoke CListResources (list_resources core) ;;
  ret (VDict {[ "resources" := VList (map (fun resource =>
         VDict {[ "uri" := resource_uri resource;
                  "name" := or_ (resource_name resource) (VStr "");
                  "description" := or_ (resource_description resource) (VStr "");
                  "mimeType" := or_ (resource_mimeType resource) (VStr "text/plain") ]})
       resources_list) ]}).

Definition _list_prompts : M St value :=
  prompts_list <- invoke CListPrompts (list_prompts core) ;;
  ret (VDict {[ "prompts" := VList (map (fun prompt =>
         VDict {[ "name" := prompt_name prompt;
                  "description" := or_ (prompt_description prompt) (VStr "");
                  "arguments" := or_ (default (VList []) (prompt_arguments prompt))
                                     (VList []) ]})
       prompts_list) ]}).

(** The result of the core, as a mapping when it is a model: what
    [model_dump()], or else [dict()], returns. *)
Definition dump_model (r : value) : value :=
  match model_dump r with
  | Some d => d
  | None => match dict_method r with
            | Some d => d
            | None => r
            end
  end.

(** The conversion of the result in an adapter: the call of the method may
    raise. *)
Definition dump (r : value) : res value :=
  match model_dump r, dict_method r with
  | None, None => Ok r
  | _, _ => match dump_error core r with
            | Some e => Raise e
            | None => Ok (dump_model r)
            end
  end.

Definition _call_tool (tool_name : value) (params : value) : M St value :=
  try_except
    (r <- invoke (CCallTool tool_name params) (call_tool core tool_name params) ;;
     lift (dump r))
    (fun e => raise (ValueError ("Error calling tool " ++ str_value core tool_name
                                   ++ ": " ++ str_exn e))).

Definition _read_resource (resource_uri : string) : M St value :=
  try_except
    (r <- invoke (CReadResource resource_uri) (read_resource core resource_uri) ;;
     ret (VDict {[ "contents" := VList [
            VDict {[ "uri" := VStr resource_uri;
                     "mimeType" := or_ (contents_mimeType r) (VStr "text/plain");
                     "text" := or_ (contents_text r) (VStr "") ]} ] ]}))
    (fun e => raise (ValueError ("Error reading resource " ++ resource_uri
                                   ++ ": " ++ str_exn e))).

Definition _get_prompt (prompt_name : string) (params : gmap string value) : M St value :=
  try_except
    (r <- invoke (CGetPrompt prompt_name (VDict params))
                 (get_prompt core prompt_name (VDict params)) ;;
     lift (dump r))
    (fun e => raise (ValueError ("Error getting prompt " ++ prompt_name
                                   ++ ": " ++ str_exn e))).

(** *** The generic method handler *)

Definition _handle_method (method : string) (params : option (gmap string value))
  : M St value :=
  if String.eqb method "tools/list" then _list_tools
  else if String.eqb method "resources/list" then _list_resources
  else if String.eqb method "prompts/list" then _list_prompts
  else if startswith method "tools/call/" then
    let tool_name := replace method "tools/call/" "" in
    _call_tool (VStr tool_name) (VDict (params_or_empty params))
  else if startswith method "resources/read/" then
    let resource_uri := replace method "resources/read/" "" in
    _read_resource resource_uri
  else if startswith method "prompts/get/" then
    let prompt_name := replace method "prompts/get/" "" in
    _get_prompt prompt_name (params_or_empty params)
  else raise (ValueError ("Unknown method: " ++ method)).

(** *** [POST /mcp/call] *)

(** The [try] block of [mcp_call]. *)
Definition mcp_call_body (request : MCPRequest) : M St MCPResponse :=
  result <-
    (if String.eqb (method request) "tools/list" then _list_tools
     else if String.eqb (method request) "resources/list" then _list_resources
     else if String.eqb (method request) "prompts/list" then _list_prompts
     else if String.eqb (method request) "tools/call" then
       let params := params_or_empty (params request) in
       let tool_name := dict_get params "name" VNone in
       if negb (truthy tool_name)
       then raise (HTTPException 400 "Missing 'name' parameter in tools/call")
       else
         let tool_arguments := dict_get params "arguments" (VDict ∅) in
         _call_tool tool_name tool_arguments
     else if startswith (method request) "resources/read/" then
       let resource_uri := replace (method request) "resources/read/" "" in
       _read_resource resource_uri
     else if startswith (method request) "prompts/get/" then
       let prompt_name := replace (method request) "prompts/get/" "" in
       _get_prompt prompt_name (params_or_empty (params request))
     else raise (HTTPException 404 ("Method not found: " ++ method request))) ;;
  ret {| result := result; error := None |}.

Definition error_envelope (e : exn) : MCPResponse :=
  {| result := VNone;
     error := Some {[ "code" := VInt (-32603); "message" := VStr (str_exn e) ]} |}.

Definition mcp_call (request : MCPRequest) : M St MCPResponse :=
  try_except (mcp_call_body request)
    (fun e =>
       log_error ("Error handling MCP call: " ++ str_exn e) ;;;
       ret (error_envelope e)).

(** What FastAPI sends for the outcome of the handler: the returned model
    with status 200 when it can encode it, the status and detail of an
    [HTTPException] that leaves the handler, status 500 for any other
    exception and for a model it cannot encode. *)
Inductive http_body : Type :=
  | BodyEnvelope (r : MCPResponse)
  | BodyDetail (detail : string)
  | BodyInternalServerError.

Record http_response := { status : Z; body : http_body }.

(** Whether FastAPI can encode the returned model. *)
Definition encodes (v : value) : bool :=
  if json_encodable v then true else response_encodes core v.

Definition response_encodable (r : MCPResponse) : bool :=
  encodes (result r)
  && match error r with
     | Some d => encodes (VDict d)
     | None => true
     end.

Definition post_mcp_call (request : MCPRequest) (w : world St)
  : http_response * world St :=
  match mcp_call request w with
  | (Ok r, w') =>
      if response_encodable r
      then ({| status := 200; body := BodyEnvelope r |}, w')
      else ({| status := 500; body := BodyInternalServerError |}, w')
  | (Raise (HTTPException c d), w') => ({| status := c; body := BodyDetail d |}, w')
  | (Raise _, w') => ({| status := 500; body := BodyInternalServerError |}, w')
  end.

(** *** [POST /mcp/stream] *)

(** The conversion of the result before it is encoded: the [__dict__] of an
    object, and for a list that is not empty the conversion of its items,
    where the call of [model_dump()] may raise. *)
Definition serializable_item (item : value) : res value :=
  match dunder_dict item with
  | Some d => Ok d
  | None => match model_dump item with
            | Some d => match dump_error core item with
                        | Some e => Raise e
                        | None => Ok d
                        end
            | None => Ok item
            end
  end.

Fixpoint serializable_items (l : list value) : res (list value) :=
  match l with
  | [] => Ok []
  | item :: rest =>
      and_then (serializable_item item) (fun x =>
      and_then (serializable_items rest) (fun xs => Ok (x :: xs)))
  end.

Definition serializable_result (r : value) : res value :=
  match dunder_dict r with
  | Some d => Ok d
  | None => match r with
            | VList ((_ :: _) as l) =>
                and_then (serializable_items l) (fun xs => Ok (VList xs))
            | _ => Ok r
            end
  end.

(** The generator of the stream.  The [return] after the missing-name event
    ends the generator, so the completion event is sent on the other paths
    only. *)
Definition generate (request : MCPRequest) : M St unit :=
  try_except
    (session_id <- fresh_uuid core ;;
     yield Connected (VDict {[ "session_id" := VStr session_id ]}) ;;;
     if String.eqb (method request) "tools/call" then
       let params := params_or_empty (params request) in
       let tool_name := dict_get params "name" VNone in
       if negb (truthy tool_name)
       then yield Error (VDict {[ "error" := VStr "Missing name parameter in tools/call" ]})
       else
         let tool_arguments := dict_get params "arguments" (VDict ∅) in
         r <- _call_tool tool_name tool_arguments ;;
         r <- lift (serializable_result r) ;;
         data <- json_dumps_default_str core r ;;
         yield Result data ;;;
         yield Done (VDict {[ "status" := VStr "completed" ]})
     else
       r <- _handle_method (method request) (params request) ;;
       data <- json_dumps core r ;;
       yield Result data ;;;
       yield Done (VDict {[ "status" := VStr "completed" ]}))
    (fun e =>
       log_error ("Error in SSE stream: " ++ str_exn e) ;;;
       yield Error (VDict {[ "error" := VDict {[ "code" := VInt (-32603);
                                                  "message" := VStr (str_exn e) ]} ]})).

(** The response streams what the generator yields for this request. *)
Definition mcp_stream (request : MCPRequest) (w : world St) : list event * world St :=
  let w0 := {| core_state := core_state w; calls := calls w;
               error_log := error_log w; emitted := [] |} in
  let w' := snd (generate request w0) in
  (emitted w', w').

End Gateway.

(** *** Auxiliary matching *)

Definition _matches_pattern (uri pattern : string) : bool :=
  if contains pattern "{" then
    let base_pattern := match split pattern "{" with
                        | piece :: _ => piece
                        | [] => EmptyString
                        end in
    startswith uri base_pattern
  else String.eqb uri pattern.

(** The [ValueError] is the one of [pattern.index]. *)
Definition _extract_params (uri pattern : string) : res (gmap string string) :=
  if contains pattern "{" then
    match index pattern "{" with
    | None => Raise (ValueError "substring not found")
    | Some param_start =>
        match index pattern "}" with
        | None => Raise (ValueError "substring not found")
        | Some param_end =>
            let param_name := slice pattern (param_start + 1) param_end in
            let base_pattern := slice pattern O param_start in
            if startswith uri base_pattern
            then Ok {[ param_name := slice_from uri (String.length base_pattern) ]}
            else Ok ∅
        end
    end
  else Ok ∅.

(** ** A small core, for concrete runs *)

Module Sample.

(** One tool that declares only its name, a tool [ping] that returns [None],
    one resource without a MIME type.  The state counts the identifiers
    drawn. *)
Definition core : Core nat := {|
  list_tools := fun s =>
    (Ok [ {| tool_name := VStr "zammad_search_tickets";
             tool_description := VNone;
             tool_inputSchema := VNone |} ], s);
  list_resources := fun s => (Ok [], s);
  list_prompts := fun s => (Ok [], s);
  call_tool := fun name _ s =>
    match name with
    | VStr n => if String.eqb n "ping" then (Ok VNone, s)
                else (Raise (OtherError ("Unknown tool: " ++ n)), s)
    | _ => (Raise (OtherError "Unknown tool"), s)
    end;
  read_resource := fun uri s =>
    if String.eqb uri "zammad://ticket/1"
    then (Ok {| contents_mimeType := VNone; contents_text := VStr "Ticket 1" |}, s)
    else (Raise (OtherError "Resource not found"), s);
  get_prompt := fun _ _ s => (Raise (OtherError "Unknown prompt"), s);
  uuid4 := fun s => ("session-" ++ str_int (Z.of_nat s), S s);
  py_repr := fun _ => "<value>";
  dump_error := fun _ => None;
  dumps_error := fun _ => TypeError "Object of type User is not JSON serializable";
  dumps_default_error := fun _ => None;
  response_encodes := fun _ => false |}.

Definition w0 : world nat :=
  {| core_state := O; calls := []; error_log := []; emitted := [] |}.

End Sample.

Module Sample2.

(** A core whose tool [whoami] returns an object without [model_dump] and
    [dict], and whose resource list has one bare entry and whose prompt has
    no [arguments] attribute. *)
Definition user_object : value :=
  VObj "<User agent>" (Some {[ "login" := VStr "agent" ]}) None None.

Definition core : Core nat := {|
  list_tools := fun s => (Raise (OtherError "catalog unavailable"), s);
  list_resources := fun s =>
    (Ok [ {| resource_uri := VStr "zammad://queue/1";
             resource_name := VNone;
             resource_description := VStr "";
             resource_mimeType := VStr "" |} ], s);
  list_prompts := fun s =>
    (Ok [ {| prompt_name := VStr "summarize";
             prompt_description := VNone;
             prompt_arguments := None |} ], s);
  call_tool := fun name _ s => (Ok user_object, s);
  read_resource := fun uri s => (Raise (HTTPException 403 "Forbidden"), s);
  get_prompt := fun _ _ s => (Raise (OtherError "Unknown prompt"), s);
  uuid4 := fun s => ("session-" ++ str_int (Z.of_nat s), S s);
  py_repr := fun _ => "<value>";
  dump_error := fun _ => None;
  dumps_error := fun _ => TypeError "Object of type User is not JSON serializable";
  dumps_default_error := fun _ => None;
  response_encodes := fun _ => false |}.

End Sample2.

Module Sample3.

(** A core whose tools return what the gateway cannot pass on: [stale]
    returns a model whose [model_dump()] raises, any other tool a list with
    an object that has neither a [__dict__] nor [model_dump], and whose
    [str()] raises in the encoder. *)
Definition stale_model : value := VObj "<Ticket 7>" None (Some (VDict ∅)) None.

Definition slots_object : value := VObj "<Slots>" None None None.

Definition core : Core nat := {|
  list_tools := fun s => (Ok [], s);
  list_resources := fun s => (Ok [], s);
  list_prompts := fun s => (Ok [], s);
  call_tool := fun name _ s =>
    match name with
    | VStr n => if String.eqb n "stale" then (Ok stale_model, s)
                else (Ok (VList [slots_object]), s)
    | _ => (Ok (VList [slots_object]), s)
    end;
  read_resource := fun uri s => (Raise (OtherError "Resource not found"), s);
  get_prompt := fun _ _ s => (Raise (OtherError "Unknown prompt"), s);
  uuid4 := fun s => ("session-" ++ str_int (Z.of_nat s), S s);
  py_repr := fun _ => "<value>";
  dump_error := fun v =>
    match model_dump v with
    | Some _ => Some (OtherError "session is closed")
    | None => None
    end;
  dumps_error := fun _ => TypeError "Object of type Slots is not JSON serializable";
  dumps_default_error := fun _ => Some (OtherError "cannot print a Slots");
  response_encodes := fun _ => false |}.

End Sample3.

(** ** The command line: [cli.main] and [HTTPMCPServer.run] *)

Module Cli.

(** The namespace of [parser.parse_args()].  [--ssl-cert] and [--ssl-key]
    are [None] when they are not given. *)
Record Args := {
  mode : string;
  host : string;
  port : Z;
  ssl : bool;
  ssl_cert : option string;
  ssl_key : option string;
  ssl_generate : bool;
  log_level : string }.

(** What a call into the server or the libraries may raise:
    [KeyboardInterrupt], an [Exception] with its text, or [SystemExit] with
    its code (uvicorn leaves with one when it cannot start). *)
Inductive signal : Type :=
  | KeyboardInterrupt
  | Failure (msg : string)
  | SystemExit (code : Z).

(** How [uvicorn.run] is called. *)
Inductive listener : Type :=
  | Plain (host : string) (port : Z)
  | Tls (host : string) (port : Z) (ssl_keyfile ssl_certfile : value).

(** The fields of [HTTPMCPServer] that [run] reads. *)
Record HTTPMCPServer := {
  srv_host : string;
  srv_port : Z;
  srv_ssl_config : option (gmap string value) }.

(** The collaborators of [main]: certificate generation, the construction
    of the server ([ZammadMCPServer()] and the FastAPI application), the
    uvicorn loop and the stdio loop.  [None] is a normal return. *)
Record Env := {
  generate_self_signed_cert : string -> signal + (string * string);
  construct : string -> Z -> option (gmap string value) -> option signal;
  uvicorn_run : listener -> option signal;
  mcp_run : option signal }.

(** What [main] does, in order. *)
Inductive effect : Type :=
  | LogInfo (msg : string)
  | LogError (msg : string)
  | Generated (hostname : string)
  | Created (srv : HTTPMCPServer)
  | Served (l : listener)
  | StdioServed.

(** How [main] ends: it returns, it exits with a code (its own [sys.exit]),
    or an exception leaves it. *)
Inductive ending : Type :=
  | Returned
  | Exited (code : Z)
  | Escaped (s : signal).

(** The truth value of an optional string. *)
Definition given (o : option string) : bool :=
  match o with
  | Some s => negb (String.eqb s "")
  | None => false
  end.

(** [HTTPMCPServer.run]: the listener it asks uvicorn for, or the
    [KeyError] of a configuration without [key] or [cert]. *)
Definition run_listener (srv : HTTPMCPServer) : signal + listener :=
  match srv_ssl_config srv with
  | Some d =>
      if bool_decide (d = ∅) then inr (Plain (srv_host srv) (srv_port srv))
      else
        match d !! "key" with
        | None => inl (Failure "'key'")
        | Some k =>
            match d !! "cert" with
            | None => inl (Failure "'cert'")
            | Some c => inr (Tls (srv_host srv) (srv_port srv) k c)
            end
        end
  | None => inr (Plain (srv_host srv) (srv_port srv))
  end.

Definition run (env : Env) (srv : HTTPMCPServer) : option signal * list effect :=
  match run_listener srv with
  | inl s => (Some s, [])
  | inr l => (uvicorn_run env l, [Served l])
  end.

(** [create_http_server] *)
Definition create_http_server (env : Env) (host : string) (port : Z)
    (ssl_config : option (gmap string value))
  : signal + HTTPMCPServer :=
  match construct env host port ssl_config with
  | Some s => inl s
  | None => inr {| srv_host := host; srv_port := port; srv_ssl_config := ssl_config |}
  end.

(** The [try] of the HTTP mode: create the server and run it. *)
Definition serve (env : Env) (host : string) (port : Z)
    (ssl_config : option (gmap string value)) : option signal * list effect :=
  match create_http_server env host port ssl_config with
  | inl s => (Some s, [])
  | inr srv =>
      let '(r, tr) := run env srv in
      (r, Created srv :: tr)
  end.

(** The two [except] clauses that follow a [try] of [main]; a [SystemExit]
    passes both. *)
Definition after_try (what : string) (r : option signal) : ending * list effect :=
  match r with
  | None => (Returned, [])
  | Some KeyboardInterrupt => (Exited 0, [LogInfo "Server stopped by user"])
  | Some (Failure msg) =>
      (Exited 1, [LogError ("Failed to start " ++ what ++ " server: " ++ msg)])
  | Some (SystemExit code) => (Escaped (SystemExit code), [])
  end.

(** The choice of the TLS material: the configuration and the protocol, or
    the early end of [main]. *)
Inductive ssl_choice : Type :=
  | Chosen (ssl_config : option (gmap string value)) (protocol : string)
  | Stopped (e : ending).

Definition choose_ssl (a : Args) (env : Env) : ssl_choice * list effect :=
  if ssl a || given (ssl_cert a) || given (ssl_key a) || ssl_generate a then
    if ssl_generate a && negb (given (ssl_cert a) && given (ssl_key a)) then
      match generate_self_signed_cert env (host a) with
      | inl s => (Stopped (Escaped s), [Generated (host a)])
      | inr (cert_path, key_path) =>
          (Chosen (Some {[ "cert" := VStr cert_path; "key" := VStr key_path ]}) "HTTPS",
           [Generated (host a);
            LogInfo ("Generated self-signed certificate: " ++ cert_path)])
      end
    else if given (ssl_cert a) && given (ssl_key a) then
      (Chosen (Some {[ "cert" := VStr (default "" (ssl_cert a));
                       "key" := VStr (default "" (ssl_key a)) ]}) "HTTPS", [])
    else
      (Stopped (Exited 1),
       [LogError "SSL enabled but no certificate provided. Use --ssl-cert and --ssl-key, or --ssl-generate"])
  else (Chosen None "HTTP", []).

(** The start of the HTTP server with the chosen configuration: the line in
    the log, the [try] and its [except] clauses. *)
Definition start (a : Args) (env : Env) (ssl_config : option (gmap string value))
    (protocol : string) : ending * list effect :=
  let starting := ("Starting Zammad MCP server in " ++ protocol ++ " mode on "
                   ++ host a ++ ":" ++ str_int (port a))%string in
  let '(r, tr_serve) := serve env (host a) (port a) ssl_config in
  let '(e, tr_end) := after_try protocol r in
  (e, ([LogInfo starting] ++ tr_serve ++ tr_end)%list).

Definition main (a : Args) (env : Env) : ending * list effect :=
  if String.eqb (mode a) "http" then
    match choose_ssl a env with
    | (Stopped e, tr) => (e, tr)
    | (Chosen ssl_config protocol, tr) =>
        let '(e, tr_start) := start a env ssl_config protocol in
        (e, (tr ++ tr_start)%list)
    end
  else
    let '(e, tr_end) := after_try "stdio" (mcp_run env) in
    (e, ([LogInfo "Starting Zammad MCP server in stdio mode"; StdioServed] ++ tr_end)%list).

(** [main] from its first line.  [parser.parse_args()] hands the namespace,
    or leaves with the [SystemExit] of argparse: code 2 for a command line
    it does not take, 0 after [--help]. *)
Definition main_from_command_line (parsed : Z + Args) (env : Env)
  : ending * list effect :=
  match parsed with
  | inl code => (Escaped (SystemExit code), [])
  | inr a => main a env
  end.

(** Whether one of the four TLS options was given. *)
Definition tls_requested (a : Args) : bool :=
  ssl a || given (ssl_cert a) || given (ssl_key a) || ssl_generate a.

Definition is_served (e : effect) : bool :=
  match e with Served _ => true | _ => false end.

Definition is_generated (e : effect) : bool :=
  match e with Generated _ => true | _ => false end.

Definition is_created (e : effect) : bool :=
  match e with Created _ => true | _ => false end.

(** An environment in which every collaborator succeeds. *)
Definition quiet_env : Env := {|
  generate_self_signed_cert := fun h =>
    inr (".certs/" ++ h ++ ".crt", ".certs/" ++ h ++ ".key");
  construct := fun _ _ _ => None;
  uvicorn_run := fun _ => None;
  mcp_run := None |}.

(** An environment without the cryptography package, and whose server does
    not start. *)
Definition broken_env : Env := {|
  generate_self_signed_cert := fun _ =>
    inl (Failure "cryptography package required for SSL certificate generation");
  construct := fun _ _ _ => None;
  uvicorn_run := fun _ => Some (Failure "address already in use");
  mcp_run := Some KeyboardInterrupt |}.

(** An environment whose servers leave with [SystemExit(3)], as uvicorn does
    when it cannot bind the address. *)
Definition exiting_env : Env := {|
  generate_self_signed_cert := fun h =>
    inr (".certs/" ++ h ++ ".crt", ".certs/" ++ h ++ ".key");
  construct := fun _ _ _ => None;
  uvicorn_run := fun _ => Some (SystemExit 3);
  mcp_run := Some (SystemExit 3) |}.

Definition plain_args : Args := {|
  mode := "http"; host := "127.0.0.1"; port := 8080; ssl := false;
  ssl_cert := None; ssl_key := None; ssl_generate := false; log_level := "INFO" |}.

(** Command lines for the HTTP mode, and one for the stdio mode with
    [--ssl]. *)
Definition witness_args (tls generate : bool) (cert key : option string) : Args :=
  {| mode := "http"; host := "0.0.0.0"; port := 8443; ssl := tls;
     ssl_cert := cert; ssl_key := key; ssl_generate := generate;
     log_level := "INFO" |}.

Definition stdio_args : Args :=
  {| mode := "stdio"; host := "127.0.0.1"; port := 8080; ssl := true;
     ssl_cert := None; ssl_key := None; ssl_generate := false;
     log_level := "INFO" |}.

End Cli.

(** ** The certificate: [ssl_utils.generate_self_signed_cert] *)

Module Ssl.

(** The operating system and the cryptography package, over a type [P] of
    paths and a type [W] of states of the outside world (files, clock,
    randomness).  An operation that raises gives the text of its exception.
    [make_material] stands for the key generation and the signing of the
    certificate; it gives the PEM text of the key and of the certificate. *)
Record Os (P W : Type) := {
  cryptography_installed : bool;
  cwd : P;
  Path : string -> P;
  joinpath : P -> string -> P;
  str_path : P -> string;
  mkdir_exist_ok : P -> W -> option string * W;
  path_exists : P -> W -> bool;
  make_material : string -> W -> (string + (string * string)) * W;
  write_bytes : P -> string -> W -> option string * W;
  chmod : P -> Z -> W -> option string * W }.
Arguments cryptography_installed {P W}.
Arguments cwd {P W}.
Arguments Path {P W}.
Arguments joinpath {P W}.
Arguments str_path {P W}.
Arguments mkdir_exist_ok {P W}.
Arguments path_exists {P W}.
Arguments make_material {P W}.
Arguments write_bytes {P W}.
Arguments chmod {P W}.

(** The calls that are made, in order, and the lines of the log. *)
Inductive op (P : Type) : Type :=
  | Mkdir (d : P)
  | Write (f : P) (data : string)
  | Chmod (f : P) (mode : Z)
  | Info (msg : string)
  | Err (msg : string).
Arguments Mkdir {P}.
Arguments Write {P}.
Arguments Chmod {P}.
Arguments Info {P}.
Arguments Err {P}.

Definition is_write {P} (o : op P) : bool :=
  match o with Write _ _ => true | _ => false end.

Definition is_chmod {P} (o : op P) : bool :=
  match o with Chmod _ _ => true | _ => false end.

(** The calls into the file system, without the lines of the log. *)
Definition is_call {P} (o : op P) : bool :=
  match o with Info _ | Err _ => false | _ => true end.

Section Generate.

Context {P W : Type} (os : Os P W).

Definition cert_dir_of (cert_dir : option string) : P :=
  match cert_dir with
  | None => joinpath os (cwd os) ".certs"
  | Some d => Path os d
  end.

Definition cert_path_of (hostname : string) (cert_dir : option string) : P :=
  joinpath os (cert_dir_of cert_dir) (hostname ++ ".crt").

Definition key_path_of (hostname : string) (cert_dir : option string) : P :=
  joinpath os (cert_dir_of cert_dir) (hostname ++ ".key").

(** The writing of the two files and the setting of their modes, 0o600 for
    the key and 0o644 for the certificate. *)
Definition store (cert_path key_path : P) (key_pem cert_pem : string) (w : W)
  : option string * list (op P) * W :=
  match write_bytes os key_path key_pem w with
  | (Some e, w1) => (Some e, [Write key_path key_pem], w1)
  | (None, w1) =>
      match write_bytes os cert_path cert_pem w1 with
      | (Some e, w2) =>
          (Some e, [Write key_path key_pem; Write cert_path cert_pem], w2)
      | (None, w2) =>
          match chmod os key_path 384 w2 with
          | (Some e, w3) =>
              (Some e, [Write key_path key_pem; Write cert_path cert_pem;
                        Chmod key_path 384], w3)
          | (None, w3) =>
              match chmod os cert_path 420 w3 with
              | (r, w4) =>
                  (r, [Write key_path key_pem; Write cert_path cert_pem;
                       Chmod key_path 384; Chmod cert_path 420], w4)
              end
          end
      end
  end.

Definition generate_self_signed_cert (hostname : string) (cert_dir : option string)
    (w : W) : (string + (string * string)) * list (op P) * W :=
  if negb (cryptography_installed os) then
    (inl "cryptography package required for SSL certificate generation",
     [Err "cryptography package not installed. Install with: pip install cryptography"],
     w)
  else
    let dir := cert_dir_of cert_dir in
    match mkdir_exist_ok os dir w with
    | (Some e, w1) => (inl e, [Mkdir dir], w1)
    | (None, w1) =>
        let cert_path := cert_path_of hostname cert_dir in
        let key_path := key_path_of hostname cert_dir in
        if path_exists os cert_path w1 && path_exists os key_path w1 then
          (inr (str_path os cert_path, str_path os key_path),
           [Mkdir dir; Info ("Using existing certificate: " ++ str_path os cert_path)],
           w1)
        else
          let head := [Mkdir dir;
                       Info ("Generating self-signed certificate for " ++ hostname)] in
          match make_material os hostname w1 with
          | (inl e, w2) => (inl e, head, w2)
          | (inr (key_pem, cert_pem), w2) =>
              match store cert_path key_path key_pem cert_pem w2 with
              | (Some e, tr, w3) => (inl e, (head ++ tr)%list, w3)
              | (None, tr, w3) =>
                  (inr (str_path os cert_path, str_path os key_path),
                   (head ++ tr
                    ++ [Info ("Certificate generated: " ++ str_path os cert_path);
                        Info ("Private key generated: " ++ str_path os key_path)])%list,
                   w3)
              end
          end
    end.

End Generate.

(** A file system in memory: files are their text and their mode; paths are
    strings. *)
Definition mem_os (fail_on_cert : bool) : Os string (gmap string (string * Z)) := {|
  cryptography_installed := true;
  cwd := "/srv";
  Path := fun s => s;
  joinpath := fun d n => (d ++ "/" ++ n)%string;
  str_path := fun p => p;
  mkdir_exist_ok := fun _ w => (None, w);
  path_exists := fun p w => bool_decide (is_Some (w !! p));
  make_material := fun h w => (inr ("KEY " ++ h, "CERT " ++ h)%string, w);
  write_bytes := fun p data w =>
    if fail_on_cert && String.eqb p "/srv/.certs/localhost.crt"
    then (Some "No space left on device", w)
    else (None, <[p := (data, 420)]> w);
  chmod := fun p m w =>
    (None, match w !! p with Some (data, _) => <[p := (data, m)]> w | None => w end) |}.

End Ssl.

(** ** The vocabulary of the specification *)

(** The six capabilities, and the capability an invocation of the core
    belongs to. *)
Inductive capability : Type :=
  | ListTools | ListResources | ListPrompts | CallTool | ReadResource | GetPrompt.

Definition capability_of (c : core_call) : capability :=
  match c with
  | CListTools => ListTools
  | CListResources => ListResources
  | CListPrompts => ListPrompts
  | CCallTool _ _ => CallTool
  | CReadResource _ => ReadResource
  | CGetPrompt _ _ => GetPrompt
  end.

(** The table of the method router as the specification gives it: the
    literals first, then the prefixes in their order; [None] is the row
    "anything else". *)
Definition router_table (m : string) : option capability :=
  if String.eqb m "tools/list" then Some ListTools
  else if String.eqb m "resources/list" then Some ListResources
  else if String.eqb m "prompts/list" then Some ListPrompts
  else if String.eqb m "tools/call" then Some CallTool
  else if startswith m "resources/read/" then Some ReadResource
  else if startswith m "prompts/get/" then Some GetPrompt
  else None.

(** The required parameter [name] of [tools/call] is absent or falsy. *)
Definition name_missing (request : MCPRequest) : bool :=
  negb (truthy (dict_get (params_or_empty (params request)) "name" VNone)).

(** A message that mentions "not found" in any case, or "unknown method". *)
Definition mentions_not_found (msg : string) : bool :=
  contains (lower msg) "not found" || contains (lower msg) "unknown method".

(** The envelope of a failure with the description [msg], and the envelope
    the formatter owes for the outcome of a capability: the value as the
    result, or the failure as the error. *)
Definition failure_envelope (msg : string) : MCPResponse :=
  {| result := VNone;
     error := Some {[ "code" := VInt (-32603); "message" := VStr msg ]} |}.

Definition envelope_of (o : res value) : MCPResponse :=
  match o with
  | Ok v => {| result := v; error := None |}
  | Raise e => failure_envelope (str_exn e)
  end.

(** The exception, if any, that the core raises for an invocation in the
    state [s]. *)
Definition core_failure {St} (core : Core St) (c : core_call) (s : St) : option exn :=
  match c with
  | CListTools =>
      match fst (list_tools core s) with Raise e => Some e | Ok _ => None end
  | CListResources =>
      match fst (list_resources core s) with Raise e => Some e | Ok _ => None end
  | CListPrompts =>
      match fst (list_prompts core s) with Raise e => Some e | Ok _ => None end
  | CCallTool n a =>
      match fst (call_tool core n a s) with Raise e => Some e | Ok _ => None end
  | CReadResource uri =>
      match fst (read_resource core uri s) with Raise e => Some e | Ok _ => None end
  | CGetPrompt n a =>
      match fst (get_prompt core n a s) with Raise e => Some e | Ok _ => None end
  end.

(** The exception, if any, that is raised under a capability in the state
    [s]: the one of the core, or the one of the conversion of what the core
    returns. *)
Definition capability_failure {St} (core : Core St) (c : core_call) (s : St)
  : option exn :=
  match c with
  | CCallTool n a =>
      match and_then (fst (call_tool core n a s)) (dump core) with
      | Raise e => Some e
      | Ok _ => None
      end
  | CGetPrompt n a =>
      match and_then (fst (get_prompt core n a s)) (dump core) with
      | Raise e => Some e
      | Ok _ => None
      end
  | _ => core_failure core c s
  end.

(** The [except] of an adapter: the exception becomes a [ValueError] whose
    message the adapter makes from the text of the exception. *)
Definition wrapped (message : string -> string) (o : res value) : res value :=
  match o with
  | Ok v => Ok v
  | Raise e => Raise (ValueError (message (str_exn e)))
  end.

(** The description of a failure [e0] under a capability: the core's own
    text for the list operations, the text of the exception behind the
    words of the adapter for the others. *)
Definition capability_failure_message {St} (core : Core St) (c : core_call) (e0 : exn)
  : string :=
  match c with
  | CListTools | CListResources | CListPrompts => str_exn e0
  | CCallTool n _ =>
      "Error calling tool " ++ str_value core n ++ ": " ++ str_exn e0
  | CReadResource uri => "Error reading resource " ++ uri ++ ": " ++ str_exn e0
  | CGetPrompt n _ => "Error getting prompt " ++ n ++ ": " ++ str_exn e0
  end.

(** The exception with that description that the adapter of the capability
    raises. *)
Definition adapter_exn {St} (core : Core St) (c : core_call) (e0 : exn) : exn :=
  match c with
  | CListTools | CListResources | CListPrompts => e0
  | _ => ValueError (capability_failure_message core c e0)
  end.

(** What the two encoders answer for a value. *)
Definition dumps_outcome {St} (core : Core St) (v : value) : res value :=
  if json_encodable v then Ok v else Raise (dumps_error core v).

Definition dumps_default_outcome {St} (core : Core St) (v : value) : res value :=
  if json_encodable v then Ok v
  else match dumps_default_error core v with
       | Some e => Raise e
       | None => Ok (json_default_str v)
       end.

(** The invocations that a run has added to the record. *)
Definition new_calls (before after : list core_call) : list core_call :=
  drop (length before) after.

(** A field of the envelope is present when it is not [None]. *)
Definition result_present (r : MCPResponse) : bool :=
  match result r with VNone => false | _ => true end.

Definition error_present (r : MCPResponse) : bool :=
  match error r with None => false | Some _ => true end.

(** The lifecycle of a stream, on the types of its events. *)
Definition is_terminal (t : event_type) : bool :=
  match t with Done | Error => true | _ => false end.

Definition count_events (p : event_type -> bool) (l : list event_type) : nat :=
  length (List.filter p l).

Definition lifecycle_ok (l : list event_type) : bool :=
  match head l, last l with
  | Some Connected, Some t =>
      is_terminal t
      && Nat.eqb (count_events (event_type_eqb Connected) l) 1
      && Nat.eqb (count_events is_terminal l) 1
      && Nat.leb (count_events (event_type_eqb Result) l) 1
  | _, _ => false
  end.

(** The events the generator sends. *)
Definition connected_event (sid : string) : event :=
  {| ev_type := Connected; ev_data := VDict {[ "session_id" := VStr sid ]} |}.

Definition done_event : event :=
  {| ev_type := Done; ev_data := VDict {[ "status" := VStr "completed" ]} |}.

Definition missing_name_event : event :=
  {| ev_type := Error;
     ev_data := VDict {[ "error" := VStr "Missing name parameter in tools/call" ]} |}.

Definition failure_event (e : exn) : event :=
  {| ev_type := Error;
     ev_data := VDict {[ "error" := VDict {[ "code" := VInt (-32603);
                                              "message" := VStr (str_exn e) ]} ]} |}.

(** The events that follow the connection event for the outcome of a
    request: the result and the completion, or the error. *)
Definition closing_events (o : res value) : list event :=
  match o with
  | Ok data => [ {| ev_type := Result; ev_data := data |}; done_event ]
  | Raise e => [ failure_event e ]
  end.

(** The entry of [tools/list] for one tool of the core. *)
Definition tool_entry (tool : tool_like) : gmap string value :=
  {[ "name" := tool_name tool;
     "description" := or_ (tool_description tool) (VStr "");
     "inputSchema" := or_ (tool_inputSchema tool) (VDict ∅) ]}.

(** The entries of [resources/list] and [prompts/list]. *)
Definition resource_entry (resource : resource_like) : gmap string value :=
  {[ "uri" := resource_uri resource;
     "name" := or_ (resource_name resource) (VStr "");
     "description" := or_ (resource_description resource) (VStr "");
     "mimeType" := or_ (resource_mimeType resource) (VStr "text/plain") ]}.

Definition prompt_entry (prompt : prompt_like) : gmap string value :=
  {[ "name" := prompt_name prompt;
     "description" := or_ (prompt_description prompt) (VStr "");
     "arguments" := or_ (default (VList []) (prompt_arguments prompt)) (VList []) ]}.

(** A character that does not occur in [a]. *)
Definition absent (c : ascii) (a : string) : Prop :=
  contains a (String c EmptyString) = false.

(** * Properties *)

(** ** Strings *)

Section StringFacts.

Lemma prefix_append (p r : string) : String.prefix p (p ++ r) = true.
Proof.
  induction p as [|c p IH]; simpl.
  - by destruct r.
  - destruct (ascii_dec c c) as [_|Hne]; [exact IH | by destruct Hne].
Qed.

Lemma replace_from_skip (old new u r : string) :
  replace_from old new (String.length u) (u ++ r) = replace_from old new O r.
Proof.
  induction u as [|c u IH]; simpl; [| exact IH].
  destruct r; reflexivity.
Qed.

(** A match at the head is replaced, and the search goes on behind it. *)
Lemma replace_head (c : ascii) (old' new r : string) :
  replace (String c old' ++ r) (String c old') new
  = new ++ replace r (String c old') new.
Proof.
  unfold replace. change (String c old' ++ r) with (String c (old' ++ r)).
  cbn [replace_from].
  change (String c (old' ++ r)) with (String c old' ++ r).
  rewrite prefix_append. f_equal.
  cbn [String.length Nat.pred]. apply replace_from_skip.
Qed.

(** Where [old] does not occur, nothing changes. *)
Lemma replace_absent (old new r : string) :
  contains r old = false → replace_from old new O r = r.
Proof.
  induction r as [|c r IH]; intros H; [reflexivity |].
  cbn [contains] in H. apply orb_false_iff in H as [Hp Hc].
  cbn [replace_from]. rewrite Hp. f_equal. by apply IH.
Qed.

(** Stripping a prefix by [replace]: what is handed on is the remainder with
    every further occurrence of the prefix deleted as well. *)
Lemma replace_strip (c : ascii) (p' r : string) :
  replace (String c p' ++ r) (String c p') "" = replace r (String c p') "".
Proof. by rewrite replace_head. Qed.

Lemma replace_strip_clean (c : ascii) (p' r : string) :
  contains r (String c p') = false →
  replace (String c p' ++ r) (String c p') "" = r.
Proof. intros H. rewrite replace_strip. unfold replace. by apply replace_absent. Qed.

Lemma lower_append (a b : string) : lower (a ++ b) = lower a ++ lower b.
Proof. induction a as [|c a IH]; simpl; [reflexivity | by rewrite IH]. Qed.

End StringFacts.

Example replace_ex1 :
  replace "resources/read/zammad://ticket/1" "resources/read/" "" = "zammad://ticket/1".
Proof. reflexivity. Qed.

Example replace_ex2 : replace "aXbXXc" "X" "--" = "a--b----c".
Proof. reflexivity. Qed.

Example replace_ex3 : replace "aaa" "aa" "b" = "ba".
Proof. reflexivity. Qed.

Example replace_ex4 : replace "ab" "" "-" = "-a-b-".
Proof. reflexivity. Qed.

Example str_exn_ex :
  str_exn (HTTPException 404 "Method not found: x") = "404: Method not found: x".
Proof. reflexivity. Qed.

(** ** Trees of JSON values *)

Section JsonTrees.

Context {St : Type} (core : Core St).

(** A tree of JSON values is no model and has no [__dict__]: the
    conversions of the gateway leave it as it is. *)
Lemma json_tree_dump (v : value) :
  json_encodable v = true → dump core v = Ok v.
Proof. by destruct v. Qed.

Lemma json_tree_serializable_item (v : value) :
  json_encodable v = true → serializable_item core v = Ok v.
Proof. by destruct v. Qed.

Lemma json_tree_serializable_items (l : list value) :
  forallb json_encodable l = true → serializable_items core l = Ok l.
Proof.
  induction l as [| x l IH]; [done |].
  cbn [forallb serializable_items]. intros [Hx Hl]%andb_true_iff.
  by rewrite json_tree_serializable_item, IH.
Qed.

Lemma json_tree_serializable_result (v : value) :
  json_encodable v = true → serializable_result core v = Ok v.
Proof.
  destruct v as [| | | | | l | |]; try done.
  destruct l as [| x l]; [done |]. intros H.
  change (and_then (serializable_items core (x :: l)) (fun xs => Ok (VList xs))
          = Ok (VList (x :: l))).
  by rewrite json_tree_serializable_items by exact H.
Qed.

(** When the conversion of a result returns, it returns what the method of
    the model returns. *)
Lemma dump_ok (v d : value) : dump core v = Ok d → d = dump_model v.
Proof.
  unfold dump, dump_model.
  destruct (model_dump v), (dict_method v), (dump_error core v); congruence.
Qed.

(** The conversion raises only what the [model_dump()] of an item raises. *)
Lemma serializable_item_raise (item : value) (e : exn) :
  serializable_item core item = Raise e → dump_error core item = Some e.
Proof.
  unfold serializable_item. destruct (dunder_dict item); [done |].
  destruct (model_dump item); [| done].
  destruct (dump_error core item); [| done]. by intros [= ->].
Qed.

Lemma serializable_items_raise (l : list value) (e : exn) :
  serializable_items core l = Raise e → ∃ item, In item l ∧ dump_error core item = Some e.
Proof.
  induction l as [| x l IH]; [done |].
  cbn [serializable_items].
  destruct (serializable_item core x) as [y|e'] eqn:Hx; cbn [and_then].
  - destruct (serializable_items core l) as [ys|e'] eqn:Hl; cbn [and_then]; [done |].
    intros [= ->]. destruct (IH eq_refl) as (item & Hin & Hi).
    exists item. split; [by right | done].
  - intros [= ->]. exists x. split; [by left |]. by apply serializable_item_raise.
Qed.

Lemma serializable_result_raise (v : value) (e : exn) :
  serializable_result core v = Raise e → ∃ item, dump_error core item = Some e.
Proof.
  unfold serializable_result. destruct (dunder_dict v); [done |].
  destruct v as [| | | | | l | |]; try done.
  destruct l as [| x l]; [done |].
  destruct (serializable_items core (x :: l)) as [xs|e'] eqn:Hl; cbn [and_then]; [done |].
  intros [= ->]. destruct (serializable_items_raise _ _ Hl) as (item & _ & Hi). eauto.
Qed.

End JsonTrees.

(** ** The adapters: what one run does to the world *)

Section AdapterFacts.

Context {St : Type} (core : Core St).

Lemma invoke_run {A} (c : core_call) (op : St → res A * St) (w : world St) :
  invoke c op w = (fst (op (core_state w)), record_call c (snd (op (core_state w))) w).
Proof. unfold invoke. by destruct (op (core_state w)). Qed.

Lemma _list_tools_run (w : world St) :
  ∃ r s', _list_tools core w = (r, record_call CListTools s' w).
Proof.
  unfold _list_tools, bind. rewrite invoke_run.
  destruct (list_tools core (core_state w)) as [[l|e] s']; simpl; eauto.
Qed.

Lemma _list_resources_run (w : world St) :
  ∃ r s', _list_resources core w = (r, record_call CListResources s' w).
Proof.
  unfold _list_resources, bind. rewrite invoke_run.
  destruct (list_resources core (core_state w)) as [[l|e] s']; simpl; eauto.
Qed.

Lemma _list_prompts_run (w : world St) :
  ∃ r s', _list_prompts core w = (r, record_call CListPrompts s' w).
Proof.
  unfold _list_prompts, bind. rewrite invoke_run.
  destruct (list_prompts core (core_state w)) as [[l|e] s']; simpl; eauto.
Qed.

Lemma _call_tool_run (n a : value) (w : world St) :
  _call_tool core n a w =
    (wrapped (fun text => "Error calling tool " ++ str_value core n ++ ": " ++ text)
       (and_then (fst (call_tool core n a (core_state w))) (dump core)),
     record_call (CCallTool n a) (snd (call_tool core n a (core_state w))) w).
Proof.
  unfold _call_tool, try_except, bind, lift. rewrite invoke_run.
  destruct (call_tool core n a (core_state w)) as [[v|e] s']; [| reflexivity].
  cbn [fst snd and_then]. by destruct (dump core v).
Qed.

Lemma _read_resource_run (uri : string) (w : world St) :
  _read_resource core uri w =
    (match fst (read_resource core uri (core_state w)) with
     | Ok r => Ok (VDict {[ "contents" := VList [
                 VDict {[ "uri" := VStr uri;
                          "mimeType" := or_ (contents_mimeType r) (VStr "text/plain");
                          "text" := or_ (contents_text r) (VStr "") ]} ] ]})
     | Raise e => Raise (ValueError ("Error reading resource " ++ uri
                                       ++ ": " ++ str_exn e))
     end,
     record_call (CReadResource uri) (snd (read_resource core uri (core_state w))) w).
Proof.
  unfold _read_resource, try_except, bind. rewrite invoke_run.
  by destruct (read_resource core uri (core_state w)) as [[v|e] s'].
Qed.

Lemma _get_prompt_run (n : string) (a : gmap string value) (w : world St) :
  _get_prompt core n a w =
    (wrapped (fun text => "Error getting prompt " ++ n ++ ": " ++ text)
       (and_then (fst (get_prompt core n (VDict a) (core_state w))) (dump core)),
     record_call (CGetPrompt n (VDict a))
                 (snd (get_prompt core n (VDict a) (core_state w))) w).
Proof.
  unfold _get_prompt, try_except, bind, lift. rewrite invoke_run.
  destruct (get_prompt core n (VDict a) (core_state w)) as [[v|e] s']; [| reflexivity].
  cbn [fst snd and_then]. by destruct (dump core v).
Qed.

(** The outcome of an adapter with a conversion follows the failure under
    its capability. *)
Lemma wrapped_outcome (message : string → string) (o : res value) :
  match o with
  | Raise e => wrapped message o = Raise (ValueError (message (str_exn e)))
  | Ok v => wrapped message o = Ok v
  end.
Proof. by destruct o. Qed.

(** The generic handler invokes the core at most once and sends nothing. *)
Lemma _handle_method_run (m : string) (p : option (gmap string value)) (w : world St) :
  (∃ e, _handle_method core m p w = (Raise e, w)) ∨
  (∃ o c s', _handle_method core m p w = (o, record_call c s' w)).
Proof.
  unfold _handle_method.
  repeat match goal with |- context [if ?b then _ else _] => destruct b end.
  - destruct (_list_tools_run w) as (r & s' & ->). eauto.
  - destruct (_list_resources_run w) as (r & s' & ->). eauto.
  - destruct (_list_prompts_run w) as (r & s' & ->). eauto.
  - rewrite _call_tool_run. eauto.
  - rewrite _read_resource_run. eauto.
  - rewrite _get_prompt_run. eauto.
  - left. eexists. reflexivity.
Qed.

Lemma dict_get_params_or_empty (p : gmap string value) (k : string) (d : value) :
  dict_get (params_or_empty (Some p)) k d = dict_get p k d.
Proof.
  unfold params_or_empty. case_bool_decide as H; [by rewrite H | done].
Qed.

(** [tools/call] without a usable [name] on the unary endpoint: the
    [HTTPException] is raised inside the [try] and caught by its [except]. *)
Lemma mcp_call_missing_name (request : MCPRequest) (w : world St) :
  method request = "tools/call" →
  name_missing request = true →
  mcp_call core request w =
    (Ok (error_envelope (HTTPException 400 "Missing 'name' parameter in tools/call")),
     record_error "Error handling MCP call: 400: Missing 'name' parameter in tools/call" w).
Proof.
  intros Hm Hn. unfold mcp_call, try_except, mcp_call_body, bind.
  rewrite Hm. cbn [String.eqb Ascii.eqb Bool.eqb].
  unfold name_missing in Hn. rewrite Hn. reflexivity.
Qed.

End AdapterFacts.

(** ** The unary endpoint *)

Section UnaryEndpoint.

Context {St : Type} (core : Core St).

(** The [except] of [mcp_call] turns every exception of the [try] block into
    the error envelope. *)
Lemma mcp_call_run (request : MCPRequest) (w : world St) :
  mcp_call core request w =
    match mcp_call_body core request w with
    | (Ok r, w') => (Ok r, w')
    | (Raise e, w') =>
        (Ok (error_envelope e),
         record_error ("Error handling MCP call: " ++ str_exn e) w')
    end.
Proof.
  unfold mcp_call, try_except.
  by destruct (mcp_call_body core request w) as [[r|e] w'].
Qed.

Lemma mcp_call_body_ok_error (request : MCPRequest) (w w' : world St) (r : MCPResponse) :
  mcp_call_body core request w = (Ok r, w') → error r = None.
Proof.
  unfold mcp_call_body, bind.
  destruct (_ w) as [[v|e] w1]; intros H; inversion H; reflexivity.
Qed.

(** A failure of the core under [tools/call] reaches the caller as the
    message of the error envelope. *)
Lemma mcp_call_tool_failure (p : gmap string value) (n : string) (e : exn)
    (s' : St) (w : world St) :
  n ≠ "" →
  p !! "name" = Some (VStr n) →
  call_tool core (VStr n) (dict_get p "arguments" (VDict ∅)) (core_state w) = (Raise e, s') →
  fst (mcp_call core {| method := "tools/call"; params := Some p |} w) =
    Ok {| result := VNone;
          error := Some {[ "code" := VInt (-32603);
                           "message" := VStr ("Error calling tool " ++ n ++ ": " ++ str_exn e) ]} |}.
Proof.
  intros Hn Hp Hc. rewrite mcp_call_run. unfold mcp_call_body, bind.
  cbn [method params String.eqb Ascii.eqb Bool.eqb].
  rewrite !dict_get_params_or_empty. unfold dict_get at 1 2. rewrite Hp.
  cbn [truthy negb]. apply String.eqb_neq in Hn. rewrite Hn. cbn [negb].
  rewrite _call_tool_run, Hc. reflexivity.
Qed.

(** C1 (what the code does): a [tools/call] request whose params have no
    [name] is answered with HTTP status 200 and an error envelope; the
    [HTTPException] with status 400 never leaves the handler, because the
    [except] clause of the same handler catches it. *)
Theorem missing_name_answered_with_200 (w : world St) :
  post_mcp_call core {| method := "tools/call"; params := Some ∅ |} w =
    ({| status := 200;
        body := BodyEnvelope
          {| result := VNone;
             error := Some {[ "code" := VInt (-32603);
                              "message" := VStr "400: Missing 'name' parameter in tools/call" ]} |} |},
     record_error "Error handling MCP call: 400: Missing 'name' parameter in tools/call" w).
Proof.
  unfold post_mcp_call. by rewrite mcp_call_missing_name.
Qed.

Lemma error_envelope_encodable (e : exn) :
  response_encodable core (error_envelope e) = true.
Proof. reflexivity. Qed.

Lemma post_mcp_call_encodable (request : MCPRequest) (w w' : world St) (r : MCPResponse) :
  mcp_call core request w = (Ok r, w') →
  response_encodable core r = true →
  post_mcp_call core request w = ({| status := 200; body := BodyEnvelope r |}, w').
Proof. intros H He. unfold post_mcp_call. by rewrite H, He. Qed.

Lemma post_mcp_call_world (request : MCPRequest) (w : world St) :
  snd (post_mcp_call core request w) = snd (mcp_call core request w).
Proof.
  unfold post_mcp_call. rewrite mcp_call_run.
  destruct (mcp_call_body core request w) as [[r|e] w']; [| reflexivity].
  by destruct (response_encodable core r).
Qed.

Lemma str_adapter_exn (c : core_call) (e0 : exn) :
  str_exn (adapter_exn core c e0) = capability_failure_message core c e0.
Proof. by destruct c. Qed.

Lemma new_calls_none (l : list core_call) : new_calls l l = [].
Proof. unfold new_calls. by rewrite drop_all. Qed.

Lemma new_calls_one (l : list core_call) (c : core_call) :
  new_calls l (l ++ [c]) = [c].
Proof. unfold new_calls. by rewrite drop_app_length. Qed.

(** The [try] block either raises before any invocation, or makes one
    invocation of the core; then it raises the adapter's exception when the
    capability fails, and returns an envelope with a result when it
    returns. *)
Lemma mcp_call_body_invocation (request : MCPRequest) (w : world St) :
  (∃ e, mcp_call_body core request w = (Raise e, w)) ∨
  (∃ c s' o,
     mcp_call_body core request w = (o, record_call c s' w) ∧
     match capability_failure core c (core_state w) with
     | Some e0 => o = Raise (adapter_exn core c e0)
     | None => ∃ v, o = Ok {| result := v; error := None |}
     end).
Proof.
  unfold mcp_call_body, bind.
  repeat match goal with |- context [if ?b then _ else _] => destruct b end.
  - right. unfold _list_tools, bind. rewrite invoke_run.
    exists CListTools. cbn [capability_failure core_failure].
    destruct (fst (list_tools core (core_state w))); eauto.
  - right. unfold _list_resources, bind. rewrite invoke_run.
    exists CListResources. cbn [capability_failure core_failure].
    destruct (fst (list_resources core (core_state w))); eauto.
  - right. unfold _list_prompts, bind. rewrite invoke_run.
    exists CListPrompts. cbn [capability_failure core_failure].
    destruct (fst (list_prompts core (core_state w))); eauto.
  - left. eauto.
  - right. rewrite _call_tool_run.
    destruct (and_then (fst (call_tool core _ _ (core_state w))) (dump core)) eqn:Hc;
      eexists _, _, _; (split; [reflexivity |]); cbn [capability_failure]; rewrite Hc;
      eauto.
  - right. rewrite _read_resource_run.
    destruct (fst (read_resource core _ (core_state w))) eqn:Hc;
      eexists _, _, _; (split; [reflexivity |]); cbn [capability_failure core_failure];
      rewrite Hc; eauto.
  - right. rewrite _get_prompt_run.
    destruct (and_then (fst (get_prompt core _ _ (core_state w))) (dump core)) eqn:Hc;
      eexists _, _, _; (split; [reflexivity |]); cbn [capability_failure]; rewrite Hc;
      eauto.
  - left. eauto.
Qed.

(** C4: no exception leaves the handler of the unary endpoint: for every
    request it returns a response envelope.  When the [try] block raises
    [e], the envelope carries the error [{code: -32603, message: str(e)}],
    whose code is negative, and no result.  In particular, when the
    capability that the request invokes fails (the core raises, or the
    conversion of what it returns does), the message is the description of
    that failure, and the answer is HTTP 200 with this envelope; a request
    that fails before any invocation is answered with an error envelope and
    HTTP 200 as well.  When the capability returns, the envelope has no
    error.  The answer is HTTP 200 with the envelope whenever FastAPI can
    encode the envelope, which it can for every error envelope. *)
Theorem mcp_call_never_raises (request : MCPRequest) (w : world St) :
  ∃ resp w',
    mcp_call core request w = (Ok resp, w') ∧
    match fst (mcp_call_body core request w) with
    | Ok r => resp = r ∧ error resp = None
    | Raise e =>
        resp = {| result := VNone;
                  error := Some {[ "code" := VInt (-32603);
                                   "message" := VStr (str_exn e) ]} |}
        ∧ -32603 < 0
    end ∧
    match new_calls (calls w) (calls w') with
    | [] =>
        error_present resp = true ∧
        fst (post_mcp_call core request w) = {| status := 200; body := BodyEnvelope resp |}
    | [c] =>
        match capability_failure core c (core_state w) with
        | Some e0 =>
            resp = {| result := VNone;
                      error := Some {[ "code" := VInt (-32603);
                                       "message" := VStr (capability_failure_message
                                                            core c e0) ]} |} ∧
            fst (post_mcp_call core request w)
              = {| status := 200; body := BodyEnvelope resp |}
        | None => error resp = None
        end
    | _ => False
    end ∧
    fst (post_mcp_call core request w)
      = (if response_encodable core resp
         then {| status := 200; body := BodyEnvelope resp |}
         else {| status := 500; body := BodyInternalServerError |}) ∧
    match error resp with
    | Some _ => response_encodable core resp = true
    | None => True
    end.
Proof.
  unfold post_mcp_call. rewrite mcp_call_run.
  destruct (mcp_call_body_invocation request w) as [[e ->] | (c & s' & o & -> & Ho)].
  - eexists _, _. split; [reflexivity |]. split; [by split |].
    cbn [calls record_error]. rewrite new_calls_none.
    rewrite error_envelope_encodable. by repeat split.
  - destruct (capability_failure core c (core_state w)) as [e0|] eqn:Hf.
    + subst o. eexists _, _. split; [reflexivity |]. cbn [fst snd].
      split; [split; reflexivity |].
      cbn [calls record_error record_call]. rewrite new_calls_one, Hf.
      rewrite error_envelope_encodable. split; [| by split].
      split; [| reflexivity].
      unfold error_envelope. by rewrite str_adapter_exn.
    + destruct Ho as [v ->]. eexists _, _. split; [reflexivity |]. cbn [fst snd].
      split; [split; reflexivity |].
      cbn [calls record_call]. rewrite new_calls_one, Hf.
      split; [reflexivity |]. split; [| done].
      by destruct (response_encodable core _).
Qed.

End UnaryEndpoint.

(** ** The streaming endpoint *)

Section StreamingEndpoint.

Context {St : Type} (core : Core St).

Lemma json_dumps_run (v : value) (w : world St) :
  json_dumps core v w = (dumps_outcome core v, w).
Proof. unfold json_dumps, dumps_outcome. by destruct (json_encodable v). Qed.

Lemma json_dumps_default_str_run (v : value) (w : world St) :
  json_dumps_default_str core v w = (dumps_default_outcome core v, w).
Proof.
  unfold json_dumps_default_str, dumps_default_outcome.
  destruct (json_encodable v); [done |]. by destruct (dumps_default_error core v).
Qed.

(** The generator always finishes, and what it has sent is one of three
    sequences. *)
Lemma generate_emitted (request : MCPRequest) (w : world St) :
  fst (generate core request w) = Ok tt ∧
  ∃ sid,
    (∃ d, emitted (snd (generate core request w))
          = (emitted w ++ [connected_event sid; {| ev_type := Result; ev_data := d |}; done_event])%list)
    ∨ emitted (snd (generate core request w)) = (emitted w ++ [connected_event sid; missing_name_event])%list
    ∨ (∃ e, emitted (snd (generate core request w))
            = (emitted w ++ [connected_event sid; failure_event e])%list).
Proof.
  unfold generate, try_except, bind, fresh_uuid.
  destruct (uuid4 core (core_state w)) as [sid s1].
  cbn [yield].
  set (w1 := record_event _ _).
  assert (Hw1 : emitted w1 = (emitted w ++ [connected_event sid])%list) by reflexivity.
  clearbody w1.
  destruct (String.eqb (method request) "tools/call").
  - destruct (negb _).
    + cbn [fst snd emitted record_event yield]. split; [done|]. exists sid. right. left.
      by rewrite Hw1, <- app_assoc.
    + rewrite _call_tool_run.
      destruct (and_then (fst (call_tool core _ _ _)) (dump core)) as [v|e];
        cbn [wrapped lift];
        [destruct (serializable_result core v) as [r|e];
         [rewrite json_dumps_default_str_run; destruct (dumps_default_outcome core r) |] |];
        cbn [fst snd emitted record_event record_error record_call log_error yield];
        (split; [done |]); exists sid.
      * left. eexists. by rewrite Hw1, <- !app_assoc.
      * right. right. eexists. by rewrite Hw1, <- !app_assoc.
      * right. right. eexists. by rewrite Hw1, <- !app_assoc.
      * right. right. eexists. by rewrite Hw1, <- !app_assoc.
  - destruct (_handle_method_run core (method request) (params request) w1)
      as [[e ->] | (o & c & s' & ->)].
    + cbn [fst snd emitted record_event record_error record_call log_error yield].
      split; [done|]. exists sid. right. right. eexists.
      by rewrite Hw1, <- !app_assoc.
    + destruct o as [v|e].
      * rewrite json_dumps_run. destruct (dumps_outcome core v);
          cbn [fst snd emitted record_event record_error record_call log_error yield].
        -- split; [done|]. exists sid. left. eexists.
           by rewrite Hw1, <- !app_assoc.
        -- split; [done|]. exists sid. right. right. eexists.
           by rewrite Hw1, <- !app_assoc.
      * cbn [fst snd emitted record_event record_error record_call log_error yield].
        split; [done|]. exists sid. right. right. eexists.
        by rewrite Hw1, <- !app_assoc.
Qed.

(** The two paths of the generator, event by event. *)
Lemma stream_tool_call (request : MCPRequest) (w : world St) :
  method request = "tools/call" →
  name_missing request = false →
  fst (mcp_stream core request w) =
    connected_event (fst (uuid4 core (core_state w))) ::
    closing_events
      (and_then
         (wrapped (fun text =>
                     "Error calling tool "
                     ++ str_value core (dict_get (params_or_empty (params request))
                                          "name" VNone)
                     ++ ": " ++ text)
            (and_then
               (fst (call_tool core
                       (dict_get (params_or_empty (params request)) "name" VNone)
                       (dict_get (params_or_empty (params request)) "arguments" (VDict ∅))
                       (snd (uuid4 core (core_state w)))))
               (dump core)))
         (fun r => and_then (serializable_result core r) (dumps_default_outcome core))).
Proof.
  intros Hm Hn. unfold mcp_stream, generate, try_except, bind, fresh_uuid.
  cbn [fst snd core_state calls error_log emitted].
  destruct (uuid4 core (core_state w)) as [sid s1].
  rewrite Hm. cbn [String.eqb Ascii.eqb Bool.eqb yield fst snd].
  unfold name_missing in Hn. rewrite Hn.
  rewrite _call_tool_run. cbn [core_state record_event].
  destruct (and_then (fst (call_tool core _ _ s1)) (dump core)) as [v|e];
    cbn [wrapped lift and_then]; [| reflexivity].
  destruct (serializable_result core v) as [r|e]; cbn [and_then]; [| reflexivity].
  rewrite json_dumps_default_str_run.
  by destruct (dumps_default_outcome core r).
Qed.

Lemma stream_generic (request : MCPRequest) (w : world St) :
  String.eqb (method request) "tools/call" = false →
  fst (mcp_stream core request w) =
    connected_event (fst (uuid4 core (core_state w))) ::
    match fst (_handle_method core (method request) (params request)
                 (record_event (connected_event (fst (uuid4 core (core_state w))))
                    {| core_state := snd (uuid4 core (core_state w)); calls := calls w;
                       error_log := error_log w; emitted := [] |})) with
    | Ok v => if json_encodable v
              then [ {| ev_type := Result; ev_data := v |}; done_event ]
              else [ failure_event (dumps_error core v) ]
    | Raise e => [ failure_event e ]
    end.
Proof.
  intros Hm. unfold mcp_stream, generate, try_except, bind, fresh_uuid.
  cbn [fst snd core_state calls error_log emitted].
  destruct (uuid4 core (core_state w)) as [sid s1].
  rewrite Hm. cbn [yield fst snd].
  set (w1 := record_event _ _).
  assert (Hw1 : emitted w1 = [connected_event sid]) by reflexivity.
  clearbody w1.
  destruct (_handle_method_run core (method request) (params request) w1)
    as [[e ->] | (o & c & s' & ->)].
  - cbn [fst snd emitted record_event record_error record_call log_error yield].
    by rewrite Hw1.
  - destruct o as [v|e]; cbn [fst].
    + rewrite json_dumps_run. unfold dumps_outcome. destruct (json_encodable v);
        cbn [fst snd emitted record_event record_error record_call log_error yield];
        by rewrite Hw1.
    + cbn [fst snd emitted record_event record_error record_call log_error yield].
      by rewrite Hw1.
Qed.

(** [tools/call] without a usable [name] on the streaming endpoint: the
    generator sends the connection event and the missing-name event, then
    returns. *)
Lemma generate_missing_name (request : MCPRequest) (w : world St) :
  method request = "tools/call" →
  name_missing request = true →
  generate core request w =
    (Ok tt,
     record_event missing_name_event
       (record_event (connected_event (fst (uuid4 core (core_state w))))
          {| core_state := snd (uuid4 core (core_state w)); calls := calls w;
             error_log := error_log w; emitted := emitted w |})).
Proof.
  intros Hm Hn. unfold generate, try_except, bind, fresh_uuid.
  destruct (uuid4 core (core_state w)) as [sid s1].
  rewrite Hm. cbn [String.eqb Ascii.eqb Bool.eqb yield fst snd].
  unfold name_missing in Hn. rewrite Hn. reflexivity.
Qed.

(** The generic handler either raises before any invocation, or makes one
    invocation of the core; then it raises the adapter's exception when the
    capability fails, and returns when it returns. *)
Lemma handle_method_invocation (m : string) (p : option (gmap string value))
    (w : world St) :
  (∃ e, _handle_method core m p w = (Raise e, w)) ∨
  (∃ c s' o,
     _handle_method core m p w = (o, record_call c s' w) ∧
     match capability_failure core c (core_state w) with
     | Some e0 => o = Raise (adapter_exn core c e0)
     | None => ∃ v, o = Ok v
     end).
Proof.
  unfold _handle_method.
  repeat match goal with |- context [if ?b then _ else _] => destruct b end.
  - right. unfold _list_tools, bind. rewrite invoke_run.
    exists CListTools. cbn [capability_failure core_failure].
    destruct (fst (list_tools core (core_state w))); eauto.
  - right. unfold _list_resources, bind. rewrite invoke_run.
    exists CListResources. cbn [capability_failure core_failure].
    destruct (fst (list_resources core (core_state w))); eauto.
  - right. unfold _list_prompts, bind. rewrite invoke_run.
    exists CListPrompts. cbn [capability_failure core_failure].
    destruct (fst (list_prompts core (core_state w))); eauto.
  - right. rewrite _call_tool_run.
    destruct (and_then (fst (call_tool core _ _ (core_state w))) (dump core)) eqn:Hc;
      eexists _, _, _; (split; [reflexivity |]); cbn [capability_failure]; rewrite Hc;
      eauto.
  - right. rewrite _read_resource_run.
    destruct (fst (read_resource core _ (core_state w))) eqn:Hc;
      eexists _, _, _; (split; [reflexivity |]); cbn [capability_failure core_failure];
      rewrite Hc; eauto.
  - right. rewrite _get_prompt_run.
    destruct (and_then (fst (get_prompt core _ _ (core_state w))) (dump core)) eqn:Hc;
      eexists _, _, _; (split; [reflexivity |]); cbn [capability_failure]; rewrite Hc;
      eauto.
  - left. eauto.
Qed.

(** A stream and the invocation behind it.  Without an invocation the
    stream ends with an error event.  With one, a failure of the capability
    ends the stream with the error event of the adapter's exception; when
    the capability returns, the stream ends with a result and [done], or
    with the error event of an exception of the conversion of an item or
    of the encoder. *)
Lemma mcp_stream_invocation (request : MCPRequest) (w : world St) :
  (calls (snd (mcp_stream core request w)) = calls w ∧
   ∃ ev, ev_type ev = Error ∧
         fst (mcp_stream core request w)
           = [connected_event (fst (uuid4 core (core_state w))); ev]) ∨
  (∃ c, calls (snd (mcp_stream core request w)) = (calls w ++ [c])%list ∧
     match capability_failure core c (snd (uuid4 core (core_state w))) with
     | Some e0 =>
         fst (mcp_stream core request w)
           = [connected_event (fst (uuid4 core (core_state w)));
              failure_event (adapter_exn core c e0)]
     | None =>
         (∃ d, fst (mcp_stream core request w)
                 = [connected_event (fst (uuid4 core (core_state w)));
                    {| ev_type := Result; ev_data := d |}; done_event]) ∨
         (∃ v e, (dump_error core v = Some e ∨
                  dumps_default_error core v = Some e ∨
                  (json_encodable v = false ∧ e = dumps_error core v)) ∧
                 fst (mcp_stream core request w)
                   = [connected_event (fst (uuid4 core (core_state w)));
                      failure_event e])
     end).
Proof.
  unfold mcp_stream, generate, try_except, bind, fresh_uuid.
  cbn [fst snd core_state calls error_log emitted].
  destruct (uuid4 core (core_state w)) as [sid s1]. cbn [yield fst snd].
  set (w1 := record_event _ _).
  assert (Hw1 : emitted w1 = [connected_event sid]) by reflexivity.
  assert (Hc1 : calls w1 = calls w) by reflexivity.
  assert (Hs1 : core_state w1 = s1) by reflexivity.
  clearbody w1.
  destruct (String.eqb (method request) "tools/call").
  - destruct (negb _).
    + left. cbn [fst snd emitted calls record_event yield]. rewrite Hw1, Hc1.
      split; [done |]. by exists missing_name_event.
    + right. rewrite _call_tool_run, Hs1.
      destruct (and_then (fst (call_tool core _ _ s1)) (dump core)) as [v|e0] eqn:Hc;
        cbn [wrapped lift].
      * destruct (serializable_result core v) as [r|e] eqn:Hr.
        -- rewrite json_dumps_default_str_run. unfold dumps_default_outcome.
           destruct (json_encodable r) eqn:Hj;
             [| destruct (dumps_default_error core r) as [e|] eqn:He];
             cbn [fst snd emitted calls record_event record_error record_call log_error
                  yield];
             rewrite Hw1, Hc1; eexists; (split; [reflexivity |]);
             cbn [capability_failure]; rewrite Hc; eauto 8.
        -- apply serializable_result_raise in Hr as [item Hi].
           cbn [fst snd emitted calls record_event record_error record_call log_error
                yield].
           rewrite Hw1, Hc1. eexists. split; [reflexivity |].
           cbn [capability_failure]. rewrite Hc. eauto 8.
      * cbn [fst snd emitted calls record_event record_error record_call log_error yield].
        rewrite Hw1, Hc1. eexists. split; [reflexivity |].
        cbn [capability_failure]. by rewrite Hc.
  - destruct (handle_method_invocation (method request) (params request) w1)
      as [[e ->] | (c & s' & o & -> & Ho)].
    + left. cbn [fst snd emitted calls record_event record_error record_call log_error yield].
      rewrite Hw1, Hc1. split; [done |]. by exists (failure_event e).
    + right. exists c. rewrite Hs1 in Ho.
      destruct (capability_failure core c s1) as [e0|].
      * subst o.
        cbn [fst snd emitted calls record_event record_error record_call log_error yield].
        by rewrite Hw1, Hc1.
      * destruct Ho as [v ->]. rewrite json_dumps_run. unfold dumps_outcome.
        destruct (json_encodable v) eqn:Hj;
          cbn [fst snd emitted calls record_event record_error record_call log_error yield];
          rewrite Hw1, Hc1; (split; [reflexivity |]); eauto 8.
Qed.

(** C3: every stream of [POST /mcp/stream] is either connected, result, done
    or connected, error.  So it begins with the only [connected] event, ends
    with the only terminal event, carries at most one [result], and nothing
    follows the terminal event.  The terminal event follows the outcome.
    Under [tools/call] the stream ends with the missing-name error when the
    name is missing, and with the error of the adapter when the core or the
    conversion of its result fails; otherwise it ends with the encoded value
    and [done], unless the conversion of an item or the encoder raises,
    which ends it with that error.  Under any other method it ends with the
    error that the generic handler raises, and when the handler returns,
    with its value and [done], or the error of the encoder.  So a request
    that invokes nothing ends with [error]; when the capability that the
    request invokes fails, the stream ends with the error event that
    carries the description of that failure; and when it returns, the
    stream ends with a result and [done] unless a conversion or the encoder
    raises. *)
Theorem stream_lifecycle (request : MCPRequest) (w : world St) :
  let stream := fst (mcp_stream core request w) in
  let types := map ev_type stream in
  let sid := fst (uuid4 core (core_state w)) in
  let s1 := snd (uuid4 core (core_state w)) in
  let name := dict_get (params_or_empty (params request)) "name" VNone in
  let arguments := dict_get (params_or_empty (params request)) "arguments" (VDict ∅) in
  (types = [Connected; Result; Done] ∨ types = [Connected; Error]) ∧
  lifecycle_ok types = true ∧
  head types = Some Connected ∧
  count_events (event_type_eqb Connected) types = 1%nat ∧
  (∃ front t, types = (front ++ [t])%list ∧ is_terminal t = true
              ∧ count_events is_terminal front = 0%nat) ∧
  (count_events (event_type_eqb Result) types ≤ 1)%nat ∧
  stream = connected_event sid ::
    (if String.eqb (method request) "tools/call" then
       if name_missing request then [ missing_name_event ]
       else
         match and_then (fst (call_tool core name arguments s1)) (dump core) with
         | Raise e0 =>
             [ failure_event (ValueError ("Error calling tool " ++ str_value core name
                                            ++ ": " ++ str_exn e0)) ]
         | Ok r =>
             match serializable_result core r with
             | Raise e => [ failure_event e ]
             | Ok r' =>
                 match dumps_default_outcome core r' with
                 | Ok data => [ {| ev_type := Result; ev_data := data |}; done_event ]
                 | Raise e => [ failure_event e ]
                 end
             end
         end
     else
       match fst (_handle_method core (method request) (params request)
                    (record_event (connected_event sid)
                       {| core_state := s1; calls := calls w;
                          error_log := error_log w; emitted := [] |})) with
       | Raise e => [ failure_event e ]
       | Ok v =>
           match dumps_outcome core v with
           | Ok data => [ {| ev_type := Result; ev_data := data |}; done_event ]
           | Raise e => [ failure_event e ]
           end
       end) ∧
  match new_calls (calls w) (calls (snd (mcp_stream core request w))) with
  | [] => types = [Connected; Error]
  | [c] =>
      match capability_failure core c s1 with
      | Some e0 =>
          stream = [ connected_event sid;
                     {| ev_type := Error;
                        ev_data := VDict {[ "error" := VDict {[
                          "code" := VInt (-32603);
                          "message" := VStr (capability_failure_message core c e0) ]} ]} |} ]
      | None =>
          (∃ d, stream = [ connected_event sid; {| ev_type := Result; ev_data := d |};
                           done_event ]) ∨
          (∃ v e, (dump_error core v = Some e ∨
                   dumps_default_error core v = Some e ∨
                   (json_encodable v = false ∧ e = dumps_error core v)) ∧
                  stream = [ connected_event sid; failure_event e ])
      end
  | _ => False
  end.
Proof.
  intros stream types sid s1 name arguments.
  assert (Hold :
    (types = [Connected; Result; Done] ∨ types = [Connected; Error]) ∧
    lifecycle_ok types = true ∧
    head types = Some Connected ∧
    count_events (event_type_eqb Connected) types = 1%nat ∧
    (∃ front t, types = (front ++ [t])%list ∧ is_terminal t = true
                ∧ count_events is_terminal front = 0%nat) ∧
    (count_events (event_type_eqb Result) types ≤ 1)%nat).
  { unfold types, stream, mcp_stream. cbn [fst].
    set (w0 := Build_world _ _ _ _ _).
    destruct (generate_emitted request w0) as [_ (sid' & [[d H] | [H | [e H]]])];
      rewrite H; cbn.
    - split; [by left|]. repeat split; try lia.
      exists [Connected; Result], Done. by repeat split.
    - split; [by right|]. repeat split; try lia.
      exists [Connected], Error. by repeat split.
    - split; [by right|]. repeat split; try lia.
      exists [Connected], Error. by repeat split. }
  destruct Hold as (H1 & H2 & H3 & H4 & H5 & H6).
  do 6 (split; [assumption |]).
  split.
  - unfold stream. destruct (String.eqb (method request) "tools/call") eqn:Hm.
    + apply String.eqb_eq in Hm. destruct (name_missing request) eqn:Hn.
      * unfold mcp_stream. by rewrite generate_missing_name.
      * rewrite stream_tool_call by done. fold sid s1 name arguments.
        destruct (and_then (fst (call_tool core name arguments s1)) (dump core))
          as [r|e0]; [| reflexivity].
        cbn [wrapped and_then closing_events].
        destruct (serializable_result core r) as [r'|e]; [| reflexivity].
        cbn [and_then]. by destruct (dumps_default_outcome core r').
    + rewrite stream_generic by done. fold sid s1.
      destruct (fst (_handle_method core _ _ _)) as [v|e]; [| done].
      unfold dumps_outcome. by destruct (json_encodable v).
  - destruct (mcp_stream_invocation request w) as [[Hc (ev & Hev & Hs)] | (c & Hc & Hs)];
      rewrite Hc.
    + rewrite new_calls_none. unfold types, stream. rewrite Hs. cbn [map ev_type].
      by rewrite Hev.
    + rewrite new_calls_one. fold s1 in Hs. fold sid stream in Hs.
      destruct (capability_failure core c s1) as [e0|]; [| exact Hs].
      rewrite Hs. unfold failure_event. by rewrite str_adapter_exn.
Qed.

Lemma name_missing_empty (m : string) (p : gmap string value) :
  name_missing {| method := m; params := Some (<["name" := VStr ""]> p) |} = true.
Proof.
  unfold name_missing. cbn [params]. rewrite dict_get_params_or_empty.
  unfold dict_get. by rewrite lookup_insert_eq.
Qed.

Lemma name_missing_absent (m : string) (p : gmap string value) :
  name_missing {| method := m; params := Some (delete "name" p) |} = true.
Proof.
  unfold name_missing. cbn [params]. rewrite dict_get_params_or_empty.
  unfold dict_get. by rewrite lookup_delete_eq.
Qed.

(** C10: on both endpoints a [tools/call] request whose [name] is the empty
    string has the very outcome of the same request without [name]: the
    missing-name envelope on the unary endpoint, the connection event and
    the missing-name error event on the stream; the core is not invoked. *)
Theorem empty_name_treated_as_absent (p : gmap string value) (w : world St) :
  let named := {| method := "tools/call"; params := Some (<["name" := VStr ""]> p) |} in
  let unnamed := {| method := "tools/call"; params := Some (delete "name" p) |} in
  mcp_call core named w = mcp_call core unnamed w ∧
  mcp_stream core named w = mcp_stream core unnamed w ∧
  fst (mcp_call core named w)
    = Ok (error_envelope (HTTPException 400 "Missing 'name' parameter in tools/call")) ∧
  (∃ sid, fst (mcp_stream core named w) = [connected_event sid; missing_name_event]) ∧
  calls (snd (mcp_call core named w)) = calls w ∧
  calls (snd (mcp_stream core named w)) = calls w.
Proof.
  intros named unnamed.
  pose proof (name_missing_empty "tools/call" p) as Hn.
  pose proof (name_missing_absent "tools/call" p) as Hu.
  fold named in Hn. fold unnamed in Hu.
  unfold mcp_stream.
  rewrite !(mcp_call_missing_name core named), !(mcp_call_missing_name core unnamed),
    !(generate_missing_name named), !(generate_missing_name unnamed) by done.
  repeat split. eexists. reflexivity.
Qed.

End StreamingEndpoint.

(** ** The method router *)

Section Router.

Context {St : Type} (core : Core St).

Lemma not_found_mentioned (m : string) :
  mentions_not_found ("404: Method not found: " ++ m) = true.
Proof.
  unfold mentions_not_found. rewrite lower_append.
  apply orb_true_iff. left. vm_compute. reflexivity.
Qed.

(** A method outside the table: the [else] branch raises the 404 exception,
    which the [except] turns into the envelope. *)
Lemma mcp_call_unknown (request : MCPRequest) (w : world St) :
  router_table (method request) = None →
  mcp_call_body core request w
    = (Raise (HTTPException 404 ("Method not found: " ++ method request)), w).
Proof.
  unfold router_table, mcp_call_body, bind. intros H.
  repeat match type of H with
         | (if ?b then _ else _) = _ => destruct b; [discriminate H |]
         end.
  reflexivity.
Qed.

(** C7: the unary router follows the table.  For a method of the table the
    core is invoked exactly once, through the capability of its row (for
    [tools/call], when the required [name] is there; without it nothing is
    invoked).  For every other method nothing is invoked, the resolution
    fails with the 404 "Method not found" exception, and the answer is HTTP
    200 with an error whose message mentions "not found". *)
Theorem router_resolution (request : MCPRequest) (w : world St) :
  ∃ new : list core_call,
    calls (snd (post_mcp_call core request w)) = (calls w ++ new)%list ∧
    match router_table (method request) with
    | Some CallTool =>
        map capability_of new = if name_missing request then [] else [CallTool]
    | Some c => map capability_of new = [c]
    | None =>
        new = [] ∧
        fst (mcp_call_body core request w)
          = Raise (HTTPException 404 ("Method not found: " ++ method request)) ∧
        fst (post_mcp_call core request w)
          = {| status := 200;
               body := BodyEnvelope
                 {| result := VNone;
                    error := Some {[ "code" := VInt (-32603);
                                     "message" := VStr ("404: Method not found: "
                                                        ++ method request) ]} |} |} ∧
        mentions_not_found ("404: Method not found: " ++ method request) = true
    end.
Proof.
  destruct (router_table (method request)) as [c|] eqn:Hr.
  - rewrite post_mcp_call_world, mcp_call_run.
    unfold router_table in Hr. unfold mcp_call_body, bind.
    destruct (String.eqb (method request) "tools/list");
      [ injection Hr as <-; destruct (_list_tools_run core w) as ([v|e] & s' & ->);
        exists [CListTools]; split; reflexivity |].
    destruct (String.eqb (method request) "resources/list");
      [ injection Hr as <-; destruct (_list_resources_run core w) as ([v|e] & s' & ->);
        exists [CListResources]; split; reflexivity |].
    destruct (String.eqb (method request) "prompts/list");
      [ injection Hr as <-; destruct (_list_prompts_run core w) as ([v|e] & s' & ->);
        exists [CListPrompts]; split; reflexivity |].
    destruct (String.eqb (method request) "tools/call").
    { injection Hr as <-. unfold name_missing.
      destruct (negb _).
      - exists []. split; [cbn [snd fst calls record_error]; by rewrite app_nil_r | done].
      - rewrite _call_tool_run.
        destruct (wrapped _ (and_then (fst (call_tool core _ _ _)) _)); eexists [_]; split; reflexivity. }
    destruct (startswith (method request) "resources/read/").
    { injection Hr as <-. rewrite _read_resource_run.
      destruct (fst (read_resource core _ _)); eexists [_]; split; reflexivity. }
    destruct (startswith (method request) "prompts/get/"); [| discriminate Hr].
    injection Hr as <-. rewrite _get_prompt_run.
    destruct (wrapped _ (and_then (fst (get_prompt core _ _ _)) _)); eexists [_]; split; reflexivity.
  - exists []. rewrite post_mcp_call_world. unfold post_mcp_call.
    rewrite mcp_call_run, (mcp_call_unknown _ _ Hr).
    cbn [fst snd calls record_error]. rewrite error_envelope_encodable, app_nil_r.
    split; [reflexivity |]. split; [reflexivity |]. split; [reflexivity |].
    split; [reflexivity | apply not_found_mentioned].
Qed.

(** *** The prefixed forms *)

Lemma handle_method_legacy (name : string) (p : option (gmap string value)) :
  _handle_method core ("tools/call/" ++ name) p
  = _call_tool core (VStr (replace name "tools/call/" "")) (VDict (params_or_empty p)).
Proof.
  unfold _handle_method.
  replace (String.eqb ("tools/call/" ++ name) "tools/list") with false by reflexivity.
  replace (String.eqb ("tools/call/" ++ name) "resources/list") with false by reflexivity.
  replace (String.eqb ("tools/call/" ++ name) "prompts/list") with false by reflexivity.
  unfold startswith. rewrite prefix_append.
  by rewrite (replace_strip "t" "ools/call/" name).
Qed.

Lemma router_table_legacy (name : string) :
  router_table ("tools/call/" ++ name) = None.
Proof. reflexivity. Qed.

Lemma mcp_call_body_read (r : string) (p : option (gmap string value)) (w : world St) :
  mcp_call_body core {| method := "resources/read/" ++ r; params := p |} w
  = bind (_read_resource core (replace r "resources/read/" ""))
         (fun v => ret {| result := v; error := None |}) w.
Proof.
  unfold mcp_call_body. cbn [method params].
  replace (String.eqb ("resources/read/" ++ r) "tools/list") with false by reflexivity.
  replace (String.eqb ("resources/read/" ++ r) "resources/list") with false by reflexivity.
  replace (String.eqb ("resources/read/" ++ r) "prompts/list") with false by reflexivity.
  replace (String.eqb ("resources/read/" ++ r) "tools/call") with false by reflexivity.
  unfold startswith. rewrite prefix_append.
  by rewrite (replace_strip "r" "esources/read/" r).
Qed.

Lemma mcp_call_body_prompt (r : string) (p : option (gmap string value)) (w : world St) :
  mcp_call_body core {| method := "prompts/get/" ++ r; params := p |} w
  = bind (_get_prompt core (replace r "prompts/get/" "") (params_or_empty p))
         (fun v => ret {| result := v; error := None |}) w.
Proof.
  unfold mcp_call_body. cbn [method params].
  replace (String.eqb ("prompts/get/" ++ r) "tools/list") with false by reflexivity.
  replace (String.eqb ("prompts/get/" ++ r) "resources/list") with false by reflexivity.
  replace (String.eqb ("prompts/get/" ++ r) "prompts/list") with false by reflexivity.
  replace (String.eqb ("prompts/get/" ++ r) "tools/call") with false by reflexivity.
  unfold startswith.
  replace (String.prefix "resources/read/" ("prompts/get/" ++ r)) with false by reflexivity.
  rewrite prefix_append.
  by rewrite (replace_strip "p" "rompts/get/" r).
Qed.

(** What reaches the core under [resources/read/] and [prompts/get/] on the
    unary endpoint: the remainder after the prefix, with every further
    occurrence of the prefix deleted. *)
Lemma mcp_call_read_argument (r : string) (p : option (gmap string value)) (w : world St) :
  calls (snd (mcp_call core {| method := "resources/read/" ++ r; params := p |} w))
  = (calls w ++ [CReadResource (replace r "resources/read/" "")])%list.
Proof.
  rewrite mcp_call_run, mcp_call_body_read. unfold bind.
  rewrite _read_resource_run.
  by destruct (fst (read_resource core _ _)).
Qed.

Lemma mcp_call_prompt_argument (r : string) (p : option (gmap string value)) (w : world St) :
  calls (snd (mcp_call core {| method := "prompts/get/" ++ r; params := p |} w))
  = (calls w ++ [CGetPrompt (replace r "prompts/get/" "") (VDict (params_or_empty p))])%list.
Proof.
  rewrite mcp_call_run, mcp_call_body_prompt. unfold bind.
  rewrite _get_prompt_run.
  by destruct (wrapped _ (and_then (fst (get_prompt core _ _ _)) _)).
Qed.

(** The stream of a legacy [tools/call/<name>] request invokes the tool. *)
Lemma mcp_stream_legacy_calls (name : string) (p : option (gmap string value))
    (w : world St) :
  calls (snd (mcp_stream core {| method := "tools/call/" ++ name; params := p |} w))
  = (calls w ++ [CCallTool (VStr (replace name "tools/call/" ""))
                           (VDict (params_or_empty p))])%list.
Proof.
  unfold mcp_stream, generate, try_except, bind, fresh_uuid.
  cbn [snd method params core_state calls].
  destruct (uuid4 core (core_state w)) as [sid s1].
  replace (String.eqb ("tools/call/" ++ name) "tools/call") with false by reflexivity.
  cbn [yield]. rewrite handle_method_legacy, _call_tool_run.
  destruct (wrapped _ (and_then (fst (call_tool core _ _ _)) _)) as [v|e]; [| reflexivity].
  unfold json_dumps. by destruct (json_encodable _).
Qed.

(** C2 (as amended): it is the streaming endpoint that accepts the legacy
    form [tools/call/<name>], through the generic handler, and invokes the
    tool [<name>]; the unary endpoint has no such branch and answers it as a
    method that was not found, without invoking the core.  (For a name free
    of the text [tools/call/].) *)
Theorem legacy_form_only_on_stream (name : string) (p : option (gmap string value))
    (w : world St) :
  contains name "tools/call/" = false →
  fst (post_mcp_call core {| method := "tools/call/" ++ name; params := p |} w)
    = {| status := 200;
         body := BodyEnvelope
           {| result := VNone;
              error := Some {[ "code" := VInt (-32603);
                               "message" := VStr ("404: Method not found: tools/call/"
                                                  ++ name) ]} |} |} ∧
  calls (snd (post_mcp_call core {| method := "tools/call/" ++ name; params := p |} w))
    = calls w ∧
  _handle_method core ("tools/call/" ++ name) p
    = _call_tool core (VStr name) (VDict (params_or_empty p)) ∧
  calls (snd (mcp_stream core {| method := "tools/call/" ++ name; params := p |} w))
    = (calls w ++ [CCallTool (VStr name) (VDict (params_or_empty p))])%list.
Proof.
  intros Hclean.
  assert (Hname : replace name "tools/call/" "" = name)
    by (unfold replace; by apply replace_absent).
  split; [| split; [| split]].
  - unfold post_mcp_call.
    rewrite mcp_call_run, mcp_call_unknown by apply router_table_legacy.
    reflexivity.
  - unfold post_mcp_call.
    rewrite mcp_call_run, mcp_call_unknown by apply router_table_legacy.
    reflexivity.
  - by rewrite handle_method_legacy, Hname.
  - by rewrite mcp_stream_legacy_calls, Hname.
Qed.

(** C5 (what the code does): the prefix is taken off with [replace], which
    deletes every occurrence of it.  For the method
    [resources/read/resources/read/x] the core is asked for [x], not for the
    remainder [resources/read/x]; likewise under [prompts/get/], and in the
    generic handler of the stream. *)
Theorem prefix_inside_remainder_is_deleted (w : world St) :
  calls (snd (mcp_call core {| method := "resources/read/resources/read/x";
                               params := None |} w))
    = (calls w ++ [CReadResource "x"])%list ∧
  calls (snd (mcp_call core {| method := "prompts/get/prompts/get/x";
                               params := None |} w))
    = (calls w ++ [CGetPrompt "x" (VDict ∅)])%list ∧
  _handle_method core "resources/read/resources/read/x" None = _read_resource core "x" ∧
  _handle_method core "prompts/get/prompts/get/x" None = _get_prompt core "x" ∅ ∧
  "x" ≠ "resources/read/x" ∧ "x" ≠ "prompts/get/x".
Proof.
  split; [| split; [| split; [| split; [| split]]]].
  - exact (mcp_call_read_argument "resources/read/x" None w).
  - exact (mcp_call_prompt_argument "prompts/get/x" None w).
  - reflexivity.
  - reflexivity.
  - discriminate.
  - discriminate.
Qed.

End Router.

(** ** Envelopes and projections *)

Section Shapes.

Context {St : Type} (core : Core St).

(** The list operations and the resource reader return a mapping, never
    [None]. *)
Lemma mcp_call_body_mapping (request : MCPRequest) (w : world St) :
  match router_table (method request) with
  | Some ListTools | Some ListResources | Some ListPrompts | Some ReadResource =>
      match fst (mcp_call_body core request w) with
      | Ok r => result_present r = true
      | Raise _ => True
      end
  | _ => True
  end.
Proof.
  unfold router_table, mcp_call_body, bind.
  destruct (String.eqb (method request) "tools/list").
  { unfold _list_tools, bind. rewrite invoke_run.
    by destruct (fst (list_tools core _)). }
  destruct (String.eqb (method request) "resources/list").
  { unfold _list_resources, bind. rewrite invoke_run.
    by destruct (fst (list_resources core _)). }
  destruct (String.eqb (method request) "prompts/list").
  { unfold _list_prompts, bind. rewrite invoke_run.
    by destruct (fst (list_prompts core _)). }
  destruct (String.eqb (method request) "tools/call"); [done |].
  destruct (startswith (method request) "resources/read/").
  { rewrite _read_resource_run. by destruct (fst (read_resource core _ _)). }
  by destruct (startswith (method request) "prompts/get/").
Qed.

(** The envelope of the unary endpoint, row by row of the router: the
    envelope of the outcome of the adapter, and the failure envelope for a
    missing name and for a method outside the table. *)
Lemma mcp_call_envelope (request : MCPRequest) (w : world St) :
  fst (mcp_call core request w) =
    Ok match router_table (method request) with
       | Some ListTools => envelope_of (fst (_list_tools core w))
       | Some ListResources => envelope_of (fst (_list_resources core w))
       | Some ListPrompts => envelope_of (fst (_list_prompts core w))
       | Some CallTool =>
           if name_missing request
           then failure_envelope "400: Missing 'name' parameter in tools/call"
           else envelope_of
                  (fst (_call_tool core
                          (dict_get (params_or_empty (params request)) "name" VNone)
                          (dict_get (params_or_empty (params request)) "arguments"
                             (VDict ∅)) w))
       | Some ReadResource =>
           envelope_of
             (fst (_read_resource core (replace (method request) "resources/read/" "") w))
       | Some GetPrompt =>
           envelope_of
             (fst (_get_prompt core (replace (method request) "prompts/get/" "")
                     (params_or_empty (params request)) w))
       | None => failure_envelope ("404: Method not found: " ++ method request)
       end.
Proof.
  rewrite mcp_call_run. unfold mcp_call_body, bind, router_table, name_missing.
  destruct (String.eqb (method request) "tools/list");
    [by destruct (_list_tools core w) as [[v|e] w1] |].
  destruct (String.eqb (method request) "resources/list");
    [by destruct (_list_resources core w) as [[v|e] w1] |].
  destruct (String.eqb (method request) "prompts/list");
    [by destruct (_list_prompts core w) as [[v|e] w1] |].
  destruct (String.eqb (method request) "tools/call").
  { destruct (negb _); [reflexivity |].
    by destruct (_call_tool core _ _ w) as [[v|e] w1]. }
  destruct (startswith (method request) "resources/read/");
    [by destruct (_read_resource core _ w) as [[v|e] w1] |].
  destruct (startswith (method request) "prompts/get/");
    [by destruct (_get_prompt core _ _ w) as [[v|e] w1] |].
  reflexivity.
Qed.

(** C6 (as amended): an envelope of the unary endpoint never has both fields
    present.  After a failure the error alone is present: the result is
    [None] and the error is [{code: -32603, message}] with the description
    of the failure.  After a success the error is absent and the result is
    the value of the capability, so exactly one field is present unless
    that value is [None], and then neither is.  The list operations and the
    resource reader never return [None]: for them exactly one field is
    present.  Row by row of the router, the envelope is the one of the
    outcome of the capability: its value as the result and no error, or no
    result and its failure as the error. *)
Theorem envelope_fields (request : MCPRequest) (w : world St) :
  ∃ resp w',
    mcp_call core request w = (Ok resp, w') ∧
    result_present resp && error_present resp = false ∧
    xorb (result_present resp) (error_present resp)
      = match fst (mcp_call_body core request w) with
        | Ok r => result_present r
        | Raise _ => true
        end ∧
    match router_table (method request) with
    | Some ListTools | Some ListResources | Some ListPrompts | Some ReadResource =>
        xorb (result_present resp) (error_present resp) = true
    | _ => True
    end ∧
    match fst (mcp_call_body core request w) with
    | Ok r => resp = r ∧ error resp = None ∧ error_present resp = false
    | Raise e =>
        result resp = VNone ∧ result_present resp = false ∧
        error resp = Some {[ "code" := VInt (-32603); "message" := VStr (str_exn e) ]} ∧
        error_present resp = true
    end ∧
    resp =
      match router_table (method request) with
      | Some ListTools => envelope_of (fst (_list_tools core w))
      | Some ListResources => envelope_of (fst (_list_resources core w))
      | Some ListPrompts => envelope_of (fst (_list_prompts core w))
      | Some CallTool =>
          if name_missing request
          then failure_envelope "400: Missing 'name' parameter in tools/call"
          else envelope_of
                 (fst (_call_tool core
                         (dict_get (params_or_empty (params request)) "name" VNone)
                         (dict_get (params_or_empty (params request)) "arguments"
                            (VDict ∅)) w))
      | Some ReadResource =>
          envelope_of
            (fst (_read_resource core (replace (method request) "resources/read/" "") w))
      | Some GetPrompt =>
          envelope_of
            (fst (_get_prompt core (replace (method request) "prompts/get/" "")
                    (params_or_empty (params request)) w))
      | None => failure_envelope ("404: Method not found: " ++ method request)
      end.
Proof.
  pose proof (mcp_call_body_mapping request w) as Hmap.
  pose proof (mcp_call_envelope request w) as Henv.
  rewrite mcp_call_run in Henv |- *.
  destruct (mcp_call_body core request w) as [[r|e] w'] eqn:Hb; cbn [fst] in *.
  - exists r, w'. pose proof (mcp_call_body_ok_error core _ _ _ _ Hb) as He.
    unfold error_present. rewrite He.
    split; [done |]. split; [by rewrite andb_false_r |].
    split; [by rewrite xorb_false_r |].
    split; [destruct (router_table _) as [[]|]; try done; by rewrite xorb_false_r |].
    split; [done |]. by injection Henv.
  - eexists _, _. split; [done |]. split; [done |]. split; [done |].
    split; [by destruct (router_table _) as [[]|] |].
    split; [done |]. by injection Henv.
Qed.

(** C8: when [_read_resource] succeeds for a URI, its value is
    [{contents: [{uri, mimeType, text}]}] with a single element, whose [uri]
    is the requested one, whose [mimeType] is the core's or "text/plain"
    when the core gives none, and whose [text] is the core's or the empty
    string when the core gives none. *)
Theorem read_resource_shape (uri : string) (w w' : world St) (v : value) :
  _read_resource core uri w = (Ok v, w') →
  ∃ (r : resource_contents) (mime text : value),
    fst (read_resource core uri (core_state w)) = Ok r ∧
    v = VDict {[ "contents" := VList [
          VDict {[ "uri" := VStr uri; "mimeType" := mime; "text" := text ]} ] ]} ∧
    mime = or_ (contents_mimeType r) (VStr "text/plain") ∧
    text = or_ (contents_text r) (VStr "") ∧
    (contents_mimeType r = VNone → mime = VStr "text/plain") ∧
    (contents_text r = VNone → text = VStr "").
Proof.
  rewrite _read_resource_run.
  destruct (fst (read_resource core uri (core_state w))) as [r|e]; [| discriminate].
  intros H. injection H as <- _.
  exists r, (or_ (contents_mimeType r) (VStr "text/plain")), (or_ (contents_text r) (VStr "")).
  repeat split; by intros ->.
Qed.

Lemma tool_entry_dom (tool : tool_like) :
  dom (tool_entry tool) = ({[ "name"; "description"; "inputSchema" ]} : gset string).
Proof.
  unfold tool_entry. rewrite !dom_insert_L, dom_singleton_L. set_solver.
Qed.

Lemma tool_entry_size (tool : tool_like) : size (tool_entry tool) = 3%nat.
Proof.
  unfold tool_entry.
  rewrite !map_size_insert_None, map_size_singleton; [done | |].
  - by rewrite lookup_singleton_ne.
  - rewrite lookup_insert_ne by done. by rewrite lookup_singleton_ne.
Qed.

(** C9 (as amended): every entry of the [tools/list] result has the three
    projected fields [name], [description] and [inputSchema], also for a tool
    of which the core gives the name only: then [description] is the empty
    string and [inputSchema] the empty mapping. *)
Theorem tools_list_projection (w : world St) (tools : list tool_like) (s' : St) :
  list_tools core (core_state w) = (Ok tools, s') →
  fst (_list_tools core w) = Ok (VDict {[ "tools" := VList (map (λ t, VDict (tool_entry t)) tools) ]}) ∧
  Forall (λ t,
      dom (tool_entry t) = ({[ "name"; "description"; "inputSchema" ]} : gset string) ∧
      size (tool_entry t) = 3%nat ∧
      tool_entry t !! "name" = Some (tool_name t) ∧
      tool_entry t !! "description" = Some (or_ (tool_description t) (VStr "")) ∧
      tool_entry t !! "inputSchema" = Some (or_ (tool_inputSchema t) (VDict ∅)) ∧
      (tool_description t = VNone → tool_entry t !! "description" = Some (VStr "")) ∧
      (tool_inputSchema t = VNone → tool_entry t !! "inputSchema" = Some (VDict ∅)))
    tools.
Proof.
  intros Hcore. split.
  - unfold _list_tools, bind. rewrite invoke_run, Hcore. reflexivity.
  - apply Forall_forall. intros t _.
    split; [apply tool_entry_dom |]. split; [apply tool_entry_size |].
    unfold tool_entry.
    split; [by simplify_map_eq |]. split; [by simplify_map_eq |].
    split; [by simplify_map_eq |].
    split; intros ->; by simplify_map_eq.
Qed.

End Shapes.

(** ** Concrete runs on the sample core *)

(** C2, the claim as stated fails: for [tools/call/ping] the unary endpoint
    invokes nothing and answers "Method not found", while the stream accepts
    the method, invokes the tool [ping] and ends with [done]. *)
Lemma legacy_form_counterexample :
  calls (snd (post_mcp_call Sample.core
                {| method := "tools/call/ping"; params := None |} Sample.w0)) = [] ∧
  fst (post_mcp_call Sample.core
         {| method := "tools/call/ping"; params := None |} Sample.w0)
    = {| status := 200;
         body := BodyEnvelope
           {| result := VNone;
              error := Some {[ "code" := VInt (-32603);
                               "message" := VStr "404: Method not found: tools/call/ping" ]} |} |} ∧
  calls (snd (mcp_stream Sample.core
                {| method := "tools/call/ping"; params := None |} Sample.w0))
    = [CCallTool (VStr "ping") (VDict ∅)] ∧
  map ev_type (fst (mcp_stream Sample.core
                      {| method := "tools/call/ping"; params := None |} Sample.w0))
    = [Connected; Result; Done].
Proof. vm_compute. repeat split. Qed.

Lemma legacy_form_witness :
  contains "ping" "tools/call/" = false ∧
  calls (snd (mcp_stream Sample.core
                {| method := "tools/call/" ++ "ping"; params := None |} Sample.w0))
    = (calls Sample.w0 ++ [CCallTool (VStr "ping") (VDict (params_or_empty None))])%list.
Proof.
  split; [reflexivity |].
  apply (legacy_form_only_on_stream Sample.core "ping" None Sample.w0).
  reflexivity.
Defined.

(** C6, the claim as stated fails: the tool [ping] succeeds with [None], and
    the envelope of its call has neither a result nor an error. *)
Lemma none_result_counterexample :
  fst (mcp_call Sample.core
         {| method := "tools/call"; params := Some {[ "name" := VStr "ping" ]} |}
         Sample.w0)
    = Ok {| result := VNone; error := None |} ∧
  result_present {| result := VNone; error := None |} = false ∧
  error_present {| result := VNone; error := None |} = false.
Proof. vm_compute. repeat split. Qed.

Lemma read_resource_witness :
  _read_resource Sample.core "zammad://ticket/1" Sample.w0
    = (Ok (VDict {[ "contents" := VList [
             VDict {[ "uri" := VStr "zammad://ticket/1";
                      "mimeType" := VStr "text/plain";
                      "text" := VStr "Ticket 1" ]} ] ]}),
       record_call (CReadResource "zammad://ticket/1") O Sample.w0) ∧
  ∃ (r : resource_contents) (mime text : value),
    fst (read_resource Sample.core "zammad://ticket/1" (core_state Sample.w0)) = Ok r ∧
    VDict {[ "contents" := VList [
             VDict {[ "uri" := VStr "zammad://ticket/1";
                      "mimeType" := VStr "text/plain";
                      "text" := VStr "Ticket 1" ]} ] ]}
      = VDict {[ "contents" := VList [
          VDict {[ "uri" := VStr "zammad://ticket/1"; "mimeType" := mime; "text" := text ]} ] ]} ∧
    mime = or_ (contents_mimeType r) (VStr "text/plain") ∧
    text = or_ (contents_text r) (VStr "") ∧
    (contents_mimeType r = VNone → mime = VStr "text/plain") ∧
    (contents_text r = VNone → text = VStr "").
Proof.
  split; [reflexivity |].
  apply (read_resource_shape Sample.core "zammad://ticket/1" Sample.w0
           (record_call (CReadResource "zammad://ticket/1") O Sample.w0)).
  reflexivity.
Defined.

(** C9, the claim as stated fails: the entry of a tool has three fields, not
    four. *)
Lemma tools_list_fields_counterexample :
  ∃ d : gmap string value,
    fst (_list_tools Sample.core Sample.w0) = Ok (VDict {[ "tools" := VList [VDict d] ]}) ∧
    size d = 3%nat ∧ size d ≠ 4%nat.
Proof.
  exists (tool_entry {| tool_name := VStr "zammad_search_tickets";
                        tool_description := VNone; tool_inputSchema := VNone |}).
  split; [reflexivity |]. rewrite tool_entry_size. split; [reflexivity | discriminate].
Qed.

Lemma tools_list_witness :
  list_tools Sample.core (core_state Sample.w0)
    = (Ok [ {| tool_name := VStr "zammad_search_tickets";
               tool_description := VNone; tool_inputSchema := VNone |} ], O) ∧
  fst (_list_tools Sample.core Sample.w0)
    = Ok (VDict {[ "tools" := VList [
            VDict {[ "name" := VStr "zammad_search_tickets";
                     "description" := VStr "";
                     "inputSchema" := VDict ∅ ]} ] ]}).
Proof.
  split; [reflexivity |].
  exact (proj1 (tools_list_projection Sample.core Sample.w0 _ O eq_refl)).
Defined.

(** A model whose [model_dump()] raises: the adapter fails, and both
    endpoints answer with the description of that failure. *)
Example conversion_failure_ex :
  fst (post_mcp_call Sample3.core
         {| method := "tools/call"; params := Some {[ "name" := VStr "stale" ]} |}
         Sample.w0)
    = {| status := 200;
         body := BodyEnvelope
           {| result := VNone;
              error := Some {[ "code" := VInt (-32603);
                               "message" := VStr "Error calling tool stale: session is closed" ]} |} |} ∧
  fst (mcp_stream Sample3.core
         {| method := "tools/call"; params := Some {[ "name" := VStr "stale" ]} |}
         Sample.w0)
    = [ connected_event "session-0";
        failure_event (ValueError "Error calling tool stale: session is closed") ].
Proof. vm_compute. split; reflexivity. Qed.

(** A result that no encoder takes: the handler of the unary endpoint
    returns its envelope and the answer is HTTP 500; the stream ends with
    the error of the encoder. *)
Example unencodable_result_ex :
  fst (mcp_call Sample3.core
         {| method := "tools/call"; params := Some {[ "name" := VStr "slots" ]} |}
         Sample.w0)
    = Ok {| result := VList [Sample3.slots_object]; error := None |} ∧
  fst (post_mcp_call Sample3.core
         {| method := "tools/call"; params := Some {[ "name" := VStr "slots" ]} |}
         Sample.w0)
    = {| status := 500; body := BodyInternalServerError |} ∧
  fst (mcp_stream Sample3.core
         {| method := "tools/call"; params := Some {[ "name" := VStr "slots" ]} |}
         Sample.w0)
    = [ connected_event "session-0";
        failure_event (OtherError "cannot print a Slots") ].
Proof. vm_compute. repeat split. Qed.

Example lifecycle_ex_ok : lifecycle_ok [Connected; Result; Done] = true.
Proof. reflexivity. Qed.

Example lifecycle_ex_after_terminal : lifecycle_ok [Connected; Error; Done] = false.
Proof. reflexivity. Qed.

Example lifecycle_ex_no_connection : lifecycle_ok [Result; Done] = false.
Proof. reflexivity. Qed.

Example mentions_ex_not_found : mentions_not_found "404: Method not found: unknown/x" = true.
Proof. vm_compute. reflexivity. Qed.

Example mentions_ex_other : mentions_not_found "400: Missing 'name' parameter in tools/call" = false.
Proof. vm_compute. reflexivity. Qed.

(** ** Auxiliary matching: URI templates *)

Section PatternFacts.

Local Open Scope nat_scope.

Lemma string_length_append (a b : string) :
  String.length (a ++ b) = String.length a + String.length b.
Proof. induction a as [|c a IH]; simpl; [reflexivity | by rewrite IH]. Qed.

Lemma string_append_assoc (a b c : string) : (a ++ b) ++ c = a ++ (b ++ c).
Proof.
  induction a as [|x a IH]; [reflexivity |].
  change (String x ((a ++ b) ++ c) = String x (a ++ (b ++ c))). by rewrite IH.
Qed.

Lemma string_append_empty (a : string) : a ++ EmptyString = a.
Proof.
  induction a as [|x a IH]; [reflexivity |].
  change (String x (a ++ EmptyString) = String x a). by rewrite IH.
Qed.

Lemma substring_all (a : string) : String.substring 0 (String.length a) a = a.
Proof. induction a as [|c a IH]; simpl; [reflexivity | by rewrite IH]. Qed.

Lemma substring_head (a r : string) :
  String.substring 0 (String.length a) (a ++ r) = a.
Proof.
  induction a as [|c a IH]; simpl; [by destruct r | by rewrite IH].
Qed.

Lemma substring_skip (a r : string) (n : nat) :
  String.substring (String.length a) n (a ++ r) = String.substring 0 n r.
Proof. induction a as [|c a IH]; simpl; [reflexivity | exact IH]. Qed.

Lemma slice_from_append (a v : string) : slice_from (a ++ v) (String.length a) = v.
Proof.
  unfold slice_from. rewrite string_length_append, substring_skip.
  replace (String.length a + String.length v - String.length a) with (String.length v) by lia.
  apply substring_all.
Qed.

Lemma startswith_decompose (s p : string) :
  startswith s p = true → s = p ++ slice_from s (String.length p).
Proof.
  unfold startswith. revert s. induction p as [|c p IH]; intros s H.
  - unfold slice_from. simpl. rewrite Nat.sub_0_r. by rewrite substring_all.
  - destruct s as [|x s]; [discriminate |]. simpl in H.
    destruct (ascii_dec c x) as [->|]; [| discriminate].
    rewrite (IH s H) at 1. reflexivity.
Qed.

Lemma prefix_empty (r : string) : String.prefix EmptyString r = true.
Proof. by destruct r. Qed.

Lemma prefix_char_here (c : ascii) (r : string) :
  String.prefix (String c EmptyString) (String c r) = true.
Proof.
  cbn [String.prefix]. destruct (ascii_dec c c); [apply prefix_empty | done].
Qed.

Lemma prefix_char_other (c x : ascii) (r : string) :
  c ≠ x → String.prefix (String c EmptyString) (String x r) = false.
Proof. intros H. cbn [String.prefix]. by destruct (ascii_dec c x). Qed.

Lemma absent_cons (c x : ascii) (a : string) :
  absent c (String x a) → c ≠ x ∧ absent c a.
Proof.
  unfold absent. cbn [contains]. intros H.
  apply orb_false_iff in H as [Hp Hc]. split; [| exact Hc].
  intros ->. by rewrite prefix_char_here in Hp.
Qed.

Lemma contains_char_here (c : ascii) (a r : string) :
  contains (a ++ String c r) (String c EmptyString) = true.
Proof.
  induction a as [|x a IH].
  - change (EmptyString ++ String c r) with (String c r).
    cbn [contains]. by rewrite prefix_char_here.
  - change (String x a ++ String c r) with (String x (a ++ String c r)).
    cbn [contains]. rewrite IH. apply orb_true_r.
Qed.

Lemma index_char (c : ascii) (a r : string) :
  absent c a → index (a ++ String c r) (String c EmptyString) = Some (String.length a).
Proof.
  induction a as [|x a IH]; intros H.
  - change (EmptyString ++ String c r) with (String c r).
    cbn [index]. by rewrite prefix_char_here.
  - apply absent_cons in H as [Hne Ha].
    change (String x a ++ String c r) with (String x (a ++ String c r)).
    cbn [index]. rewrite prefix_char_other by done.
    rewrite (IH Ha). reflexivity.
Qed.

Lemma index_absent (c : ascii) (a : string) :
  absent c a → index a (String c EmptyString) = None.
Proof.
  induction a as [|x a IH]; intros H; [reflexivity |].
  apply absent_cons in H as [Hne Ha].
  cbn [index]. rewrite prefix_char_other by done.
  by rewrite (IH Ha).
Qed.

Lemma split_first_piece (c : ascii) (a r cur : string) :
  absent c a →
  split_from (String c EmptyString) 0 cur (a ++ String c r)
  = (cur ++ a) :: split_from (String c EmptyString) 0 EmptyString r.
Proof.
  revert cur. induction a as [|x a IH]; intros cur H.
  - change (EmptyString ++ String c r) with (String c r).
    cbn [split_from]. rewrite prefix_char_here, string_append_empty. reflexivity.
  - apply absent_cons in H as [Hne Ha].
    change (String x a ++ String c r) with (String x (a ++ String c r)).
    cbn [split_from]. rewrite prefix_char_other by done.
    rewrite (IH _ Ha). f_equal. by rewrite string_append_assoc.
Qed.

Lemma absent_append (c : ascii) (a b : string) :
  absent c a → absent c b → absent c (a ++ b).
Proof.
  induction a as [|x a IH]; intros Ha Hb; [exact Hb |].
  apply absent_cons in Ha as [Hne Ha]. unfold absent in *.
  change (String x a ++ b) with (String x (a ++ b)).
  cbn [contains]. rewrite prefix_char_other by done.
  cbn [orb]. by apply IH.
Qed.

Lemma substring_skip_more (a r : string) (k n : nat) :
  String.substring (String.length a + k) n (a ++ r) = String.substring k n r.
Proof. induction a as [|c a IH]; [reflexivity | exact IH]. Qed.

Lemma substring_nothing (s : string) (n : nat) : String.substring n 0 s = EmptyString.
Proof. revert n. induction s as [|c s IH]; intros [|n]; simpl; auto. Qed.

Lemma index_found (s sub : string) :
  contains s sub = true → ∃ n, index s sub = Some n.
Proof.
  induction s as [|c s IH]; cbn [contains index]; intros H.
  - rewrite orb_false_r in H. rewrite H. eauto.
  - destruct (String.prefix sub (String c s)); [eauto |].
    destruct (IH H) as [n ->]. cbn. eauto.
Qed.

(** A well-formed template: a base without braces, then the parameter name
    between braces, then anything. *)
Lemma index_open_brace (base tail : string) :
  absent "{" base → index (base ++ String "{" tail) "{" = Some (String.length base).
Proof. apply index_char. Qed.

Lemma index_close_brace (base name rest : string) :
  absent "}" base → absent "}" name →
  index (base ++ String "{" (name ++ String "}" rest)) "}"
  = Some (String.length base + S (String.length name)).
Proof.
  intros Hb Hn.
  replace (base ++ String "{" (name ++ String "}" rest))
    with ((base ++ String "{" name) ++ String "}" rest)
    by (by rewrite string_append_assoc).
  rewrite index_char.
  - by rewrite string_length_append.
  - apply absent_append; [done |].
    unfold absent in *. cbn [contains]. rewrite prefix_char_other by done. exact Hn.
Qed.

(** X1: A template matches on the text before its first opening brace alone:
    what follows the brace in the pattern is never compared with the URI. *)
Theorem template_matches_on_base (uri base rest : string) :
  absent "{" base →
  _matches_pattern uri (base ++ String "{" rest) = startswith uri base.
Proof.
  intros Hb. unfold _matches_pattern, split.
  by rewrite contains_char_here, split_first_piece.
Qed.

(** X2: Matching and extraction agree on a well-formed template
    [base{name}rest]: a URI that matches is the base followed by a remainder,
    and extraction binds the name to that remainder and to nothing else; a
    URI that does not match gives the empty mapping. *)
Theorem extract_params_agrees (uri base name rest : string) :
  absent "{" base → absent "}" base → absent "}" name →
  (_matches_pattern uri (base ++ String "{" (name ++ String "}" rest)) = true →
     uri = base ++ slice_from uri (String.length base)) ∧
  _extract_params uri (base ++ String "{" (name ++ String "}" rest))
  = if _matches_pattern uri (base ++ String "{" (name ++ String "}" rest))
    then Ok {[ name := slice_from uri (String.length base) ]}
    else Ok ∅.
Proof.
  intros Ho Hc Hn. rewrite template_matches_on_base by done. split.
  - apply startswith_decompose.
  - unfold _extract_params.
    rewrite contains_char_here, index_open_brace, index_close_brace by done.
    assert (Hbase : slice (base ++ String "{" (name ++ String "}" rest)) 0
                      (String.length base) = base).
    { unfold slice. rewrite Nat.sub_0_r. apply substring_head. }
    assert (Hname : slice (base ++ String "{" (name ++ String "}" rest))
                      (String.length base + 1)
                      (String.length base + S (String.length name)) = name).
    { unfold slice.
      replace (String.length base + S (String.length name) - (String.length base + 1))
        with (String.length name) by lia.
      rewrite substring_skip_more. cbn [String.substring]. apply substring_head. }
    rewrite Hbase, Hname. reflexivity.
Qed.

(** X3: The round trip of a template: the URI made of the base and a value gives
    the value back under the parameter name. *)
Theorem extract_params_roundtrip (base name rest v : string) :
  absent "{" base → absent "}" base → absent "}" name →
  _matches_pattern (base ++ v) (base ++ String "{" (name ++ String "}" rest)) = true ∧
  _extract_params (base ++ v) (base ++ String "{" (name ++ String "}" rest))
  = Ok {[ name := v ]}.
Proof.
  intros Ho Hc Hn.
  assert (Hm : _matches_pattern (base ++ v)
                 (base ++ String "{" (name ++ String "}" rest)) = true).
  { rewrite template_matches_on_base by done. apply prefix_append. }
  split; [exact Hm |].
  destruct (extract_params_agrees (base ++ v) base name rest Ho Hc Hn) as [_ ->].
  by rewrite Hm, slice_from_append.
Qed.

(** X4: A template whose brace is never closed: matching still answers, but
    extraction raises the [ValueError] of [index], whatever the URI. *)
Theorem extract_params_unclosed (uri pattern : string) :
  contains pattern "{" = true →
  absent "}" pattern →
  _extract_params uri pattern = Raise (ValueError "substring not found").
Proof.
  intros Ho Hc. unfold _extract_params. rewrite Ho.
  destruct (index_found _ _ Ho) as [n ->].
  by rewrite (index_absent "}" pattern Hc).
Qed.

(** A pattern without a brace matches its own text only, and extraction from
    it binds nothing, also for the URI that matches. *)
Theorem plain_pattern (uri pattern : string) :
  contains pattern "{" = false →
  (_matches_pattern uri pattern = true ↔ uri = pattern) ∧
  _extract_params uri pattern = Ok ∅.
Proof.
  intros H. unfold _matches_pattern, _extract_params. rewrite H.
  split; [apply String.eqb_eq | reflexivity].
Qed.

(** X5: A closing brace that stands before the opening one is taken for the end
    of the name: the value is bound to the empty name. *)
Theorem extract_params_early_close (b1 b2 rest v : string) :
  absent "{" b1 → absent "{" b2 → absent "}" b1 →
  _extract_params ((b1 ++ String "}" b2) ++ v) ((b1 ++ String "}" b2) ++ String "{" rest)
  = Ok {[ EmptyString := v ]}.
Proof.
  intros H1 H2 Hc.
  assert (Hbase : absent "{" (b1 ++ String "}" b2)).
  { apply absent_append; [done |].
    unfold absent in *. cbn [contains]. by rewrite prefix_char_other. }
  unfold _extract_params.
  rewrite contains_char_here, index_open_brace by done.
  replace ((b1 ++ String "}" b2) ++ String "{" rest)
    with (b1 ++ String "}" (b2 ++ String "{" rest))
    by (by rewrite string_append_assoc).
  rewrite (index_char "}" b1) by done.
  replace (b1 ++ String "}" (b2 ++ String "{" rest))
    with ((b1 ++ String "}" b2) ++ String "{" rest)
    by (by rewrite string_append_assoc).
  assert (Hb : slice ((b1 ++ String "}" b2) ++ String "{" rest) 0
                 (String.length (b1 ++ String "}" b2)) = b1 ++ String "}" b2).
  { unfold slice. rewrite Nat.sub_0_r. apply substring_head. }
  assert (Hname : slice ((b1 ++ String "}" b2) ++ String "{" rest)
                    (String.length (b1 ++ String "}" b2) + 1) (String.length b1)
                  = EmptyString).
  { unfold slice.
    replace (String.length b1 - (String.length (b1 ++ String "}" b2) + 1)) with 0
      by (rewrite string_length_append; lia).
    apply substring_nothing. }
  rewrite Hb, Hname. unfold startswith. rewrite prefix_append.
  by rewrite slice_from_append.
Qed.

End PatternFacts.

(** ** More on the two endpoints *)

Section EndpointFacts.

Context {St : Type} (core : Core St).

(** The [try] block of the unary endpoint invokes the core at most once. *)
Lemma mcp_call_body_run (request : MCPRequest) (w : world St) :
  (∃ e, mcp_call_body core request w = (Raise e, w)) ∨
  (∃ o c s', mcp_call_body core request w = (o, record_call c s' w)).
Proof.
  unfold mcp_call_body, bind.
  repeat match goal with |- context [if ?b then _ else _] => destruct b end.
  - destruct (_list_tools_run core w) as ([v|e] & s' & ->); eauto.
  - destruct (_list_resources_run core w) as ([v|e] & s' & ->); eauto.
  - destruct (_list_prompts_run core w) as ([v|e] & s' & ->); eauto.
  - eauto.
  - rewrite _call_tool_run. destruct (wrapped _ (and_then (fst (call_tool core _ _ _)) _)); eauto.
  - rewrite _read_resource_run. destruct (fst (read_resource core _ _)); eauto.
  - rewrite _get_prompt_run. destruct (wrapped _ (and_then (fst (get_prompt core _ _ _)) _)); eauto.
  - eauto.
Qed.

Lemma params_or_empty_none_or_empty :
  params_or_empty (Some ∅) = params_or_empty None.
Proof. unfold params_or_empty. by case_bool_decide. Qed.

Lemma handle_method_params_empty (m : string) :
  _handle_method core m (Some ∅) = _handle_method core m None.
Proof. unfold _handle_method. by rewrite params_or_empty_none_or_empty. Qed.

(** X6: A request without [params] and a request with empty [params] have the
    same outcome on both endpoints, whatever the method. *)
Theorem absent_params_as_empty (m : string) (w : world St) :
  mcp_call core {| method := m; params := Some ∅ |} w
    = mcp_call core {| method := m; params := None |} w ∧
  mcp_stream core {| method := m; params := Some ∅ |} w
    = mcp_stream core {| method := m; params := None |} w.
Proof.
  split.
  - unfold mcp_call, mcp_call_body. cbn [method params].
    by rewrite params_or_empty_none_or_empty.
  - unfold mcp_stream, generate. cbn [method params].
    by rewrite params_or_empty_none_or_empty, handle_method_params_empty.
Qed.

(** *** Which invocation a request leads to *)

Lemma dict_get_lookup (p : gmap string value) (k : string) (d : value) :
  dict_get p k d = default d (p !! k).
Proof. unfold dict_get. by destruct (p !! k). Qed.

Lemma mcp_call_calls_tool (request : MCPRequest) (w : world St) :
  method request = "tools/call" →
  calls (snd (mcp_call core request w)) =
    if name_missing request then calls w
    else (calls w ++ [CCallTool
            (dict_get (params_or_empty (params request)) "name" VNone)
            (dict_get (params_or_empty (params request)) "arguments" (VDict ∅))])%list.
Proof.
  intros Hm. destruct (name_missing request) eqn:Hn.
  - by rewrite mcp_call_missing_name.
  - rewrite mcp_call_run. unfold mcp_call_body, bind. rewrite Hm.
    cbn [String.eqb Ascii.eqb Bool.eqb]. unfold name_missing in Hn. rewrite Hn.
    rewrite _call_tool_run. by destruct (wrapped _ (and_then (fst (call_tool core _ _ _)) _)).
Qed.

Lemma generate_calls_tool (request : MCPRequest) (w : world St) :
  method request = "tools/call" →
  calls (snd (generate core request w)) =
    if name_missing request then calls w
    else (calls w ++ [CCallTool
            (dict_get (params_or_empty (params request)) "name" VNone)
            (dict_get (params_or_empty (params request)) "arguments" (VDict ∅))])%list.
Proof.
  intros Hm. destruct (name_missing request) eqn:Hn.
  - by rewrite generate_missing_name.
  - unfold generate, try_except, bind, fresh_uuid.
    destruct (uuid4 core (core_state w)) as [sid s1].
    rewrite Hm. cbn [String.eqb Ascii.eqb Bool.eqb yield fst snd].
    unfold name_missing in Hn. rewrite Hn.
    rewrite _call_tool_run.
    destruct (wrapped _ (and_then (fst (call_tool core _ _ _)) _)) as [r|e];
      [| reflexivity].
    unfold lift. destruct (serializable_result core r); [| reflexivity].
    rewrite json_dumps_default_str_run. by destruct (dumps_default_outcome core _).
Qed.

Lemma generate_calls_generic (request : MCPRequest) (w : world St) :
  String.eqb (method request) "tools/call" = false →
  ∃ w1, calls w1 = calls w ∧
    calls (snd (generate core request w))
    = calls (snd (_handle_method core (method request) (params request) w1)).
Proof.
  intros Hm. unfold generate, try_except, bind, fresh_uuid.
  destruct (uuid4 core (core_state w)) as [sid s1].
  rewrite Hm. cbn [yield fst snd].
  set (w1 := record_event _ _). exists w1. split; [reflexivity |].
  destruct (_handle_method_run core (method request) (params request) w1)
    as [[e ->] | (o & c & s' & ->)]; [reflexivity |].
  destruct o as [v|e]; [| reflexivity].
  unfold json_dumps. by destruct (json_encodable v).
Qed.

(** Off the legacy form, the generic handler and the [try] block of the
    unary endpoint lead to the same invocation. *)
Lemma handle_method_as_body (m : string) (p : option (gmap string value))
    (w1 w2 : world St) :
  String.eqb m "tools/call" = false →
  startswith m "tools/call/" = false →
  calls w1 = calls w2 →
  calls (snd (_handle_method core m p w1))
  = calls (snd (mcp_call_body core {| method := m; params := p |} w2)).
Proof.
  intros Hc Hl Hw. unfold _handle_method, mcp_call_body, bind. cbn [method params].
  rewrite Hc, Hl.
  destruct (String.eqb m "tools/list").
  { destruct (_list_tools_run core w1) as (r1 & s1 & ->).
    destruct (_list_tools_run core w2) as ([v|e] & s2 & ->); cbn; by rewrite Hw. }
  destruct (String.eqb m "resources/list").
  { destruct (_list_resources_run core w1) as (r1 & s1 & ->).
    destruct (_list_resources_run core w2) as ([v|e] & s2 & ->); cbn; by rewrite Hw. }
  destruct (String.eqb m "prompts/list").
  { destruct (_list_prompts_run core w1) as (r1 & s1 & ->).
    destruct (_list_prompts_run core w2) as ([v|e] & s2 & ->); cbn; by rewrite Hw. }
  destruct (startswith m "resources/read/").
  { rewrite !_read_resource_run.
    destruct (fst (read_resource core _ (core_state w2))); cbn; by rewrite Hw. }
  destruct (startswith m "prompts/get/").
  { rewrite !_get_prompt_run.
    destruct (wrapped _ (and_then (fst (get_prompt core _ _ (core_state w2))) _));
      cbn; by rewrite Hw. }
  exact Hw.
Qed.

(** X7: The two endpoints lead to the same invocation of the core, with the same
    arguments, for every request whose method is not of the legacy form
    [tools/call/...]. *)
Theorem endpoints_route_alike (request : MCPRequest) (w : world St) :
  startswith (method request) "tools/call/" = false →
  calls (snd (mcp_stream core request w)) = calls (snd (mcp_call core request w)).
Proof.
  intros Hl. unfold mcp_stream. cbn [snd].
  destruct (String.eqb (method request) "tools/call") eqn:Hc.
  - apply String.eqb_eq in Hc.
    by rewrite generate_calls_tool, mcp_call_calls_tool.
  - destruct (generate_calls_generic request
                {| core_state := core_state w; calls := calls w;
                   error_log := error_log w; emitted := [] |} Hc) as (w1 & Hw1 & ->).
    rewrite mcp_call_run.
    rewrite (handle_method_as_body (method request) (params request) w1 w Hc Hl Hw1).
    destruct request as [m p]. cbn [method params].
    by destruct (mcp_call_body core _ w) as [[r|e] w'].
Qed.

(** X8: No request makes the gateway invoke the core twice: on either endpoint
    the record of invocations grows by one entry at most. *)
Theorem at_most_one_invocation (request : MCPRequest) (w : world St) :
  (∃ new, calls (snd (mcp_call core request w)) = (calls w ++ new)%list
          ∧ (length new ≤ 1)%nat) ∧
  (∃ new, calls (snd (mcp_stream core request w)) = (calls w ++ new)%list
          ∧ (length new ≤ 1)%nat).
Proof.
  split.
  - rewrite mcp_call_run.
    destruct (mcp_call_body_run request w) as [[e ->] | (o & c & s' & ->)].
    + exists []. split; [by rewrite app_nil_r | cbn; lia].
    + exists [c]. split; [by destruct o | cbn; lia].
  - unfold mcp_stream. cbn [snd].
    destruct (String.eqb (method request) "tools/call") eqn:Hc.
    + apply String.eqb_eq in Hc. rewrite generate_calls_tool by done.
      destruct (name_missing request).
      * exists []. split; [by rewrite app_nil_r | cbn; lia].
      * eexists [_]. split; [reflexivity | cbn; lia].
    + destruct (generate_calls_generic request
                  {| core_state := core_state w; calls := calls w;
                     error_log := error_log w; emitted := [] |} Hc) as (w1 & Hw1 & ->).
      destruct (_handle_method_run core (method request) (params request) w1)
        as [[e ->] | (o & c & s' & ->)]; cbn [snd calls record_call]; rewrite Hw1;
        cbn [calls].
      * exists []. split; [by rewrite app_nil_r | cbn; lia].
      * exists [c]. split; [reflexivity | cbn; lia].
Qed.

(** X9: The tool name and the arguments reach the core as they stand in the
    params: any truthy [name], a string or not, is passed on; [arguments] is
    passed on as it is, [null] included, and is the empty mapping only when
    the key is absent. *)
Theorem tool_call_arguments (p : gmap string value) (name : value) (w : world St) :
  p !! "name" = Some name →
  truthy name = true →
  calls (snd (mcp_call core {| method := "tools/call"; params := Some p |} w))
    = (calls w ++ [CCallTool name (default (VDict ∅) (p !! "arguments"))])%list ∧
  calls (snd (mcp_stream core {| method := "tools/call"; params := Some p |} w))
    = (calls w ++ [CCallTool name (default (VDict ∅) (p !! "arguments"))])%list.
Proof.
  intros Hp Ht.
  assert (Hn : name_missing {| method := "tools/call"; params := Some p |} = false).
  { unfold name_missing. cbn [params]. rewrite dict_get_params_or_empty.
    unfold dict_get. by rewrite Hp, Ht. }
  unfold mcp_stream. cbn [snd].
  rewrite mcp_call_calls_tool, generate_calls_tool by done. rewrite Hn.
  cbn [params calls]. rewrite !dict_get_params_or_empty, !dict_get_lookup, Hp.
  done.
Qed.

(** X10: A [name] that is falsy in Python ([null], [false], [0], [0.0], the empty
    string, list or mapping) is a missing name: on both endpoints the
    missing-name answer is given and the core is not invoked. *)
Theorem falsy_name_is_missing (p : gmap string value) (name : value) (w : world St) :
  p !! "name" = Some name →
  truthy name = false →
  fst (mcp_call core {| method := "tools/call"; params := Some p |} w)
    = Ok (error_envelope (HTTPException 400 "Missing 'name' parameter in tools/call")) ∧
  fst (mcp_stream core {| method := "tools/call"; params := Some p |} w)
    = [connected_event (fst (uuid4 core (core_state w))); missing_name_event] ∧
  calls (snd (mcp_call core {| method := "tools/call"; params := Some p |} w)) = calls w ∧
  calls (snd (mcp_stream core {| method := "tools/call"; params := Some p |} w)) = calls w.
Proof.
  intros Hp Ht.
  assert (Hn : name_missing {| method := "tools/call"; params := Some p |} = true).
  { unfold name_missing. cbn [params]. rewrite dict_get_params_or_empty.
    unfold dict_get. by rewrite Hp, Ht. }
  unfold mcp_stream.
  rewrite mcp_call_missing_name, generate_missing_name by done.
  done.
Qed.

(** *** Failures *)

(** X11: The unary endpoint logs one line for every error it answers, with the
    message of the envelope, and nothing for a success. *)
Theorem errors_are_logged (request : MCPRequest) (w : world St) :
  ∃ resp w',
    mcp_call core request w = (Ok resp, w') ∧
    error_log w' =
      match error resp with
      | None => error_log w
      | Some d =>
          (error_log w ++ [String.append "Error handling MCP call: "
                             match d !! "message" with
                             | Some (VStr m) => m
                             | _ => EmptyString
                             end])%list
      end.
Proof.
  rewrite mcp_call_run.
  destruct (mcp_call_body core request w) as [[r|e] w'] eqn:Hb.
  - exists r, w'. split; [done |].
    rewrite (mcp_call_body_ok_error core _ _ _ _ Hb).
    destruct (mcp_call_body_run request w) as [[e He] | (o & c & s' & He)];
      rewrite He in Hb; by inversion Hb.
  - eexists _, _. split; [done |].
    assert (Hw : error_log w' = error_log w).
    { destruct (mcp_call_body_run request w) as [[e' He] | (o & c & s' & He)];
        rewrite He in Hb; by inversion Hb. }
    cbn [error error_envelope error_log record_error]. rewrite Hw.
    by rewrite lookup_insert_ne, lookup_singleton_eq.
Qed.

(** X12: The missing name is logged on the unary endpoint only: the stream sends
    its error event without a line in the log. *)
Theorem missing_name_logging (request : MCPRequest) (w : world St) :
  method request = "tools/call" →
  name_missing request = true →
  error_log (snd (mcp_call core request w))
    = (error_log w ++ ["Error handling MCP call: 400: Missing 'name' parameter in tools/call"])%list ∧
  error_log (snd (mcp_stream core request w)) = error_log w.
Proof.
  intros Hm Hn. unfold mcp_stream.
  by rewrite mcp_call_missing_name, generate_missing_name.
Qed.

(** X13: A method that no branch of the generic handler takes ends the stream
    with the error "Unknown method: ...", and the core is not invoked. *)
Theorem stream_unknown_method (request : MCPRequest) (w : world St) :
  router_table (method request) = None →
  startswith (method request) "tools/call/" = false →
  fst (mcp_stream core request w)
    = [connected_event (fst (uuid4 core (core_state w)));
       failure_event (ValueError ("Unknown method: " ++ method request))] ∧
  calls (snd (mcp_stream core request w)) = calls w.
Proof.
  intros Hr Hl.
  assert (Hh : ∀ w1, _handle_method core (method request) (params request) w1
                     = (Raise (ValueError ("Unknown method: " ++ method request)), w1)).
  { intros w1. unfold router_table in Hr. unfold _handle_method. rewrite Hl.
    repeat match type of Hr with
           | (if ?b then _ else _) = _ => destruct b; [discriminate Hr |]
           end.
    reflexivity. }
  assert (Hc : String.eqb (method request) "tools/call" = false).
  { unfold router_table in Hr.
    repeat match type of Hr with
           | (if ?b then _ else _) = _ => destruct b eqn:?; [discriminate Hr |]
           end.
    done. }
  split.
  - rewrite stream_generic by done. by rewrite Hh.
  - unfold mcp_stream. cbn [snd].
    destruct (generate_calls_generic request
                {| core_state := core_state w; calls := calls w;
                   error_log := error_log w; emitted := [] |} Hc) as (w1 & Hw1 & ->).
    by rewrite Hh.
Qed.

(** X14: A failure of the core under [call_tool], [read_resource] or
    [get_prompt], and a failure of the conversion of what the core returns,
    make the adapter raise a [ValueError] whose message is the text of the
    exception behind a fixed prefix; under the list operations the adapter
    raises what the core raises.  An adapter raises in no other case. *)
Theorem adapters_raise_value_error (n a : value) (uri pn : string)
    (pa : gmap string value) (w : world St) :
  match fst (call_tool core n a (core_state w)) with
  | Raise e0 =>
      fst (_call_tool core n a w)
        = Raise (ValueError ("Error calling tool " ++ str_value core n
                               ++ ": " ++ str_exn e0))
  | Ok v =>
      match dump core v with
      | Raise e =>
          fst (_call_tool core n a w)
            = Raise (ValueError ("Error calling tool " ++ str_value core n
                                   ++ ": " ++ str_exn e))
      | Ok d => fst (_call_tool core n a w) = Ok d
      end
  end ∧
  match fst (read_resource core uri (core_state w)) with
  | Raise e0 =>
      fst (_read_resource core uri w)
        = Raise (ValueError ("Error reading resource " ++ uri ++ ": " ++ str_exn e0))
  | Ok _ => ∃ v, fst (_read_resource core uri w) = Ok v
  end ∧
  match fst (get_prompt core pn (VDict pa) (core_state w)) with
  | Raise e0 =>
      fst (_get_prompt core pn pa w)
        = Raise (ValueError ("Error getting prompt " ++ pn ++ ": " ++ str_exn e0))
  | Ok v =>
      match dump core v with
      | Raise e =>
          fst (_get_prompt core pn pa w)
            = Raise (ValueError ("Error getting prompt " ++ pn ++ ": " ++ str_exn e))
      | Ok d => fst (_get_prompt core pn pa w) = Ok d
      end
  end ∧
  match fst (list_tools core (core_state w)) with
  | Raise e0 => fst (_list_tools core w) = Raise e0
  | Ok _ => ∃ v, fst (_list_tools core w) = Ok v
  end ∧
  match fst (list_resources core (core_state w)) with
  | Raise e0 => fst (_list_resources core w) = Raise e0
  | Ok _ => ∃ v, fst (_list_resources core w) = Ok v
  end ∧
  match fst (list_prompts core (core_state w)) with
  | Raise e0 => fst (_list_prompts core w) = Raise e0
  | Ok _ => ∃ v, fst (_list_prompts core w) = Ok v
  end.
Proof.
  rewrite _call_tool_run, _read_resource_run, _get_prompt_run.
  unfold _list_tools, _list_resources, _list_prompts, bind. rewrite !invoke_run.
  cbn [fst].
  repeat split.
  - destruct (fst (call_tool core n a (core_state w))) as [v|e0]; [| reflexivity].
    cbn [and_then]. by destruct (dump core v).
  - destruct (fst (read_resource core uri (core_state w))); eauto.
  - destruct (fst (get_prompt core pn (VDict pa) (core_state w))) as [v|e0];
      [| reflexivity].
    cbn [and_then]. by destruct (dump core v).
  - destruct (fst (list_tools core (core_state w))); eauto.
  - destruct (fst (list_resources core (core_state w))); eauto.
  - destruct (fst (list_prompts core (core_state w))); eauto.
Qed.

(** *** Results on the stream *)

(** X15: Under [tools/call] a call that the core answers with a tree of JSON
    values ends the stream with that very value as the result, and [done].
    For any other value the stream follows the conversions and the encoder
    with [default=str]: it ends with the error of the adapter when the
    conversion of the result raises, with the error of the conversion of an
    item or of the encoder when one of them raises, and otherwise with the
    encoded value and [done]. *)
Theorem tool_call_stream_result (p : gmap string value) (name v : value)
    (w : world St) :
  p !! "name" = Some name →
  truthy name = true →
  fst (call_tool core name (default (VDict ∅) (p !! "arguments"))
         (snd (uuid4 core (core_state w)))) = Ok v →
  let stream := fst (mcp_stream core {| method := "tools/call"; params := Some p |} w) in
  let sid := fst (uuid4 core (core_state w)) in
  (json_encodable v = true →
   stream = [ connected_event sid; {| ev_type := Result; ev_data := v |}; done_event ]) ∧
  stream = connected_event sid ::
    match dump core v with
    | Raise e =>
        [ failure_event (ValueError ("Error calling tool " ++ str_value core name
                                       ++ ": " ++ str_exn e)) ]
    | Ok r =>
        match serializable_result core r with
        | Raise e => [ failure_event e ]
        | Ok r' =>
            match dumps_default_outcome core r' with
            | Ok data => [ {| ev_type := Result; ev_data := data |}; done_event ]
            | Raise e => [ failure_event e ]
            end
        end
    end.
Proof.
  intros Hp Ht Hc stream sid.
  assert (Hn : name_missing {| method := "tools/call"; params := Some p |} = false).
  { unfold name_missing. cbn [params]. rewrite dict_get_params_or_empty.
    unfold dict_get. by rewrite Hp, Ht. }
  assert (Hs : stream = connected_event sid ::
    match dump core v with
    | Raise e =>
        [ failure_event (ValueError ("Error calling tool " ++ str_value core name
                                       ++ ": " ++ str_exn e)) ]
    | Ok r =>
        match serializable_result core r with
        | Raise e => [ failure_event e ]
        | Ok r' =>
            match dumps_default_outcome core r' with
            | Ok data => [ {| ev_type := Result; ev_data := data |}; done_event ]
            | Raise e => [ failure_event e ]
            end
        end
    end).
  { unfold stream. rewrite stream_tool_call by done. cbn [params].
    rewrite !dict_get_params_or_empty, (dict_get_lookup p "arguments").
    unfold dict_get. rewrite Hp, Hc. cbn [and_then]. fold sid.
    destruct (dump core v) as [r|e]; [| reflexivity].
    cbn [wrapped and_then closing_events].
    destruct (serializable_result core r) as [r'|e]; [| reflexivity].
    cbn [and_then]. by destruct (dumps_default_outcome core r'). }
  split; [| exact Hs].
  intros Hj. rewrite Hs.
  rewrite json_tree_dump, json_tree_serializable_result by done.
  unfold dumps_default_outcome. by rewrite Hj.
Qed.

(** X16: Under the legacy form the value goes through the plain encoder: when the
    tool returns a value that is not JSON-encodable, the stream ends with an
    error event although the tool has run. *)
Theorem legacy_stream_unencodable_result (n : string) (p : option (gmap string value))
    (v : value) (w : world St) :
  contains n "tools/call/" = false →
  fst (call_tool core (VStr n) (VDict (params_or_empty p))
         (snd (uuid4 core (core_state w)))) = Ok v →
  json_encodable (dump_model v) = false →
  map ev_type (fst (mcp_stream core {| method := "tools/call/" ++ n; params := p |} w))
    = [Connected; Error] ∧
  calls (snd (mcp_stream core {| method := "tools/call/" ++ n; params := p |} w))
    = (calls w ++ [CCallTool (VStr n) (VDict (params_or_empty p))])%list.
Proof.
  intros Hclean Hc Hj.
  assert (Hname : replace n "tools/call/" "" = n)
    by (unfold replace; by apply replace_absent).
  split.
  - rewrite stream_generic by reflexivity. cbn [method params].
    rewrite handle_method_legacy, Hname, _call_tool_run.
    cbn [core_state record_event fst]. rewrite Hc. cbn [and_then].
    destruct (dump core v) as [d|e] eqn:Hd; [| reflexivity].
    apply dump_ok in Hd as ->. cbn [wrapped]. by rewrite Hj.
  - by rewrite mcp_stream_legacy_calls, Hname.
Qed.

End EndpointFacts.

(** ** The other two list operations *)

Section ListFacts.

Context {St : Type} (core : Core St).

Lemma or_falsy (x d : value) : truthy x = false → or_ x d = d.
Proof. unfold or_. by intros ->. Qed.

(** X17: [resources/list] gives one entry per resource of the core, in the core's
    order, each with the four fields [uri], [name], [description] and
    [mimeType].  A field that the core leaves out or gives as an empty
    string has its default: the empty string, or "text/plain" for the MIME
    type. *)
Theorem resources_list_projection (w : world St) (resources : list resource_like)
    (s' : St) :
  list_resources core (core_state w) = (Ok resources, s') →
  fst (_list_resources core w)
    = Ok (VDict {[ "resources" := VList (map (λ r, VDict (resource_entry r)) resources) ]}) ∧
  Forall (λ r,
      dom (resource_entry r)
        = ({[ "uri"; "name"; "description"; "mimeType" ]} : gset string) ∧
      resource_entry r !! "uri" = Some (resource_uri r) ∧
      resource_entry r !! "name" = Some (or_ (resource_name r) (VStr "")) ∧
      resource_entry r !! "description" = Some (or_ (resource_description r) (VStr "")) ∧
      resource_entry r !! "mimeType"
        = Some (or_ (resource_mimeType r) (VStr "text/plain")) ∧
      (truthy (resource_name r) = false → resource_entry r !! "name" = Some (VStr "")) ∧
      (truthy (resource_description r) = false →
         resource_entry r !! "description" = Some (VStr "")) ∧
      (truthy (resource_mimeType r) = false →
         resource_entry r !! "mimeType" = Some (VStr "text/plain")))
    resources.
Proof.
  intros Hcore. split.
  - unfold _list_resources, bind. rewrite invoke_run, Hcore. reflexivity.
  - apply Forall_forall. intros r _. unfold resource_entry.
    split; [rewrite !dom_insert_L, dom_singleton_L; set_solver |].
    split; [by simplify_map_eq |]. split; [by simplify_map_eq |].
    split; [by simplify_map_eq |]. split; [by simplify_map_eq |].
    split; [| split]; intros H; rewrite (or_falsy _ _ H); by simplify_map_eq.
Qed.

(** X18: [prompts/list] gives one entry per prompt, with [name], [description]
    and [arguments]; [arguments] is the empty list when the prompt has no
    such attribute, when it is [None] and when it is empty. *)
Theorem prompts_list_projection (w : world St) (prompts : list prompt_like) (s' : St) :
  list_prompts core (core_state w) = (Ok prompts, s') →
  fst (_list_prompts core w)
    = Ok (VDict {[ "prompts" := VList (map (λ q, VDict (prompt_entry q)) prompts) ]}) ∧
  Forall (λ q,
      dom (prompt_entry q) = ({[ "name"; "description"; "arguments" ]} : gset string) ∧
      prompt_entry q !! "name" = Some (prompt_name q) ∧
      prompt_entry q !! "description" = Some (or_ (prompt_description q) (VStr "")) ∧
      (prompt_arguments q = None ∨ prompt_arguments q = Some VNone
         ∨ prompt_arguments q = Some (VList []) →
       prompt_entry q !! "arguments" = Some (VList [])) ∧
      (∀ a, prompt_arguments q = Some a → truthy a = true →
            prompt_entry q !! "arguments" = Some a))
    prompts.
Proof.
  intros Hcore. split.
  - unfold _list_prompts, bind. rewrite invoke_run, Hcore. reflexivity.
  - apply Forall_forall. intros q _. unfold prompt_entry.
    split; [rewrite !dom_insert_L, dom_singleton_L; set_solver |].
    split; [by simplify_map_eq |]. split; [by simplify_map_eq |].
    split.
    + intros [-> | [-> | ->]]; by simplify_map_eq.
    + intros a -> Ha. change (default (VList []) (Some a)) with a.
      unfold or_. rewrite Ha. by simplify_map_eq.
Qed.

End ListFacts.
(** ** The command line *)

Section CliFacts.

Import Cli.

Lemma run_listener_pair (h : string) (p : Z) (c k : string) :
  run_listener {| srv_host := h; srv_port := p;
                  srv_ssl_config := Some {[ "cert" := VStr c; "key" := VStr k ]} |}
  = inr (Tls h p (VStr k) (VStr c)).
Proof.
  unfold run_listener. cbn [srv_ssl_config srv_host srv_port].
  rewrite bool_decide_eq_false_2 by apply insert_non_empty.
  rewrite lookup_insert_ne by done. rewrite lookup_singleton_eq.
  by rewrite lookup_insert_eq.
Qed.

(** What [serve] does with a certificate pair, and without a configuration. *)
Lemma serve_pair (env : Env) (h : string) (p : Z) (c k : string) :
  serve env h p (Some {[ "cert" := VStr c; "key" := VStr k ]}) =
    match construct env h p (Some {[ "cert" := VStr c; "key" := VStr k ]}) with
    | Some s => (Some s, [])
    | None =>
        (uvicorn_run env (Tls h p (VStr k) (VStr c)),
         [Created {| srv_host := h; srv_port := p;
                     srv_ssl_config := Some {[ "cert" := VStr c; "key" := VStr k ]} |};
          Served (Tls h p (VStr k) (VStr c))])
    end.
Proof.
  unfold serve, create_http_server.
  destruct (construct env h p _); [reflexivity |].
  unfold run. by rewrite run_listener_pair.
Qed.

Lemma serve_none (env : Env) (h : string) (p : Z) :
  serve env h p None =
    match construct env h p None with
    | Some s => (Some s, [])
    | None =>
        (uvicorn_run env (Plain h p),
         [Created {| srv_host := h; srv_port := p; srv_ssl_config := None |};
          Served (Plain h p)])
    end.
Proof.
  unfold serve, create_http_server. by destruct (construct env h p None).
Qed.

Lemma after_try_effects (what : string) (r : option signal) :
  List.filter is_served (snd (after_try what r)) = [] ∧
  List.filter is_generated (snd (after_try what r)) = [] ∧
  List.filter is_created (snd (after_try what r)) = [].
Proof. by destruct r as [[|msg|code]|]. Qed.

Lemma after_try_code (what : string) (r : option signal) :
  match fst (after_try what r) with
  | Returned => r = None
  | Exited c => (c = 0 ∧ r = Some KeyboardInterrupt) ∨ (c = 1 ∧ ∃ msg, r = Some (Failure msg))
  | Escaped s => ∃ code, s = SystemExit code ∧ r = Some s
  end.
Proof. destruct r as [[|msg|code]|]; cbn; eauto. Qed.

Lemma start_ending (a : Args) (env : Env) (cfg : option (gmap string value))
    (protocol : string) :
  fst (start a env cfg protocol)
    = fst (after_try protocol (fst (serve env (host a) (port a) cfg))).
Proof.
  unfold start. destruct (serve env (host a) (port a) cfg) as [r tr].
  cbn [fst]. by destruct (after_try protocol r).
Qed.

(** The server is started once at most, and [start] lets no exception out
    but a [SystemExit] of the server: otherwise it returns, or exits with 0
    on an interrupt and 1 on a failure. *)
Lemma start_run (a : Args) (env : Env) (cfg : option (gmap string value))
    (protocol : string) (l : listener) :
  run_listener {| srv_host := host a; srv_port := port a; srv_ssl_config := cfg |}
    = inr l →
  List.filter is_generated (snd (start a env cfg protocol)) = [] ∧
  (List.filter is_served (snd (start a env cfg protocol)) = [] ∨
   List.filter is_served (snd (start a env cfg protocol)) = [Served l]) ∧
  match fst (start a env cfg protocol) with
  | Returned => True
  | Exited c => c = 0 ∨ c = 1
  | Escaped s =>
      ∃ code, s = SystemExit code ∧
              fst (serve env (host a) (port a) cfg) = Some (SystemExit code)
  end.
Proof.
  intros Hl. split; [| split].
  - unfold start, serve, create_http_server, run.
    destruct (construct env (host a) (port a) cfg) as [s|].
    + by destruct s as [|msg|code].
    + rewrite Hl. by destruct (uvicorn_run env l) as [[|msg|code]|].
  - unfold start, serve, create_http_server, run.
    destruct (construct env (host a) (port a) cfg) as [s|].
    + destruct s as [|msg|code]; cbn; eauto.
    + rewrite Hl. destruct (uvicorn_run env l) as [[|msg|code]|]; cbn; eauto.
  - rewrite start_ending.
    pose proof (after_try_code protocol (fst (serve env (host a) (port a) cfg))) as Hc.
    destruct (fst (after_try protocol _)) as [| c | s]; [done | |].
    + destruct Hc as [[-> _] | [-> _]]; eauto.
    + destruct Hc as (code & -> & Hr). eauto.
Qed.

(** X19: In HTTP mode uvicorn is started once at most, with TLS exactly when one
    of the four TLS options was given: the protocol that is logged is the
    one that is served. *)
Theorem tls_exactly_when_requested (a : Args) (env : Env) :
  mode a = "http" →
  List.filter is_served (snd (main a env)) = [] ∨
  ∃ l, List.filter is_served (snd (main a env)) = [Served l] ∧
       if tls_requested a
       then ∃ k c, l = Tls (host a) (port a) (VStr k) (VStr c)
       else l = Plain (host a) (port a).
Proof.
  intros Hm. unfold main. rewrite Hm. cbn [String.eqb Ascii.eqb Bool.eqb].
  unfold choose_ssl.
  destruct (tls_requested a) eqn:Ht; unfold tls_requested in Ht; rewrite Ht.
  - destruct (ssl_generate a && negb (given (ssl_cert a) && given (ssl_key a))).
    + destruct (generate_self_signed_cert env (host a)) as [s | [c k]]; [by left |].
      destruct (start_run a env _ "HTTPS" _ (run_listener_pair (host a) (port a) c k))
        as (_ & Hs & _).
      destruct (start a env _ "HTTPS") as [e tr]. cbn [snd app List.filter is_served] in *.
      destruct Hs as [-> | ->]; [by left | right; eauto].
    + destruct (given (ssl_cert a) && given (ssl_key a)); [| by left].
      destruct (start_run a env _ "HTTPS" _
                  (run_listener_pair (host a) (port a)
                     (default "" (ssl_cert a)) (default "" (ssl_key a))))
        as (_ & Hs & _).
      destruct (start a env _ "HTTPS") as [e tr]. cbn [snd app List.filter is_served] in *.
      destruct Hs as [-> | ->]; [by left | right; eauto].
  - destruct (start_run a env None "HTTP" (Plain (host a) (port a)) eq_refl)
      as (_ & Hs & _).
    destruct (start a env None "HTTP") as [e tr]. cbn [snd app List.filter is_served] in *.
    destruct Hs as [-> | ->]; [by left | right; eauto].
Qed.

(** X20: A certificate and a key that are both given are used as they are, and
    no certificate is generated, [--ssl-generate] or not. *)
Theorem provided_pair_wins (a : Args) (env : Env) (c k : string) :
  mode a = "http" →
  ssl_cert a = Some c → c ≠ "" →
  ssl_key a = Some k → k ≠ "" →
  List.filter is_generated (snd (main a env)) = [] ∧
  (List.filter is_served (snd (main a env)) = [] ∨
   List.filter is_served (snd (main a env))
     = [Served (Tls (host a) (port a) (VStr k) (VStr c))]).
Proof.
  intros Hm Hc Hcne Hk Hkne. unfold main. rewrite Hm.
  cbn [String.eqb Ascii.eqb Bool.eqb]. unfold choose_ssl.
  assert (Gc : given (ssl_cert a) = true)
    by (rewrite Hc; cbn; by apply String.eqb_neq in Hcne as ->).
  assert (Gk : given (ssl_key a) = true)
    by (rewrite Hk; cbn; by apply String.eqb_neq in Hkne as ->).
  rewrite Gc, Gk, Hc, Hk.
  rewrite orb_true_r. cbn [orb andb negb default].
  rewrite andb_false_r.
  destruct (start_run a env _ "HTTPS" _ (run_listener_pair (host a) (port a) c k))
    as (Hg & Hs & _).
  destruct (start a env _ "HTTPS") as [e tr].
  cbn [snd app List.filter is_served is_generated] in *. by rewrite Hg.
Qed.

(** X21: With [--ssl-generate] and an incomplete pair the generated files are
    used and a path given alone is ignored.  When the generation fails, its
    exception leaves [main] as it is: the server is not created, nothing is
    logged and there is no exit code. *)
Theorem generated_pair_used (a : Args) (env : Env) :
  mode a = "http" →
  ssl_generate a = true →
  given (ssl_cert a) && given (ssl_key a) = false →
  match generate_self_signed_cert env (host a) with
  | inl s => main a env = (Escaped s, [Generated (host a)])
  | inr (c, k) =>
      List.filter is_generated (snd (main a env)) = [Generated (host a)] ∧
      (List.filter is_served (snd (main a env)) = [] ∨
       List.filter is_served (snd (main a env))
         = [Served (Tls (host a) (port a) (VStr k) (VStr c))])
  end.
Proof.
  intros Hm Hg Hpair. unfold main. rewrite Hm.
  cbn [String.eqb Ascii.eqb Bool.eqb]. unfold choose_ssl.
  rewrite Hg, Hpair, orb_true_r. cbn [andb negb].
  destruct (generate_self_signed_cert env (host a)) as [s | [c k]]; [reflexivity |].
  destruct (start_run a env _ "HTTPS" _ (run_listener_pair (host a) (port a) c k))
    as (Hgen & Hs & _).
  destruct (start a env _ "HTTPS") as [e tr].
  cbn [snd app List.filter is_served is_generated] in *. by rewrite Hgen.
Qed.

(** X22: A TLS option without the material ([--ssl] alone, or one of the two
    paths alone) ends [main] with exit code 1 before any server is created. *)
Theorem tls_without_material_exits (a : Args) (env : Env) :
  mode a = "http" →
  tls_requested a = true →
  ssl_generate a = false →
  given (ssl_cert a) && given (ssl_key a) = false →
  main a env =
    (Exited 1,
     [LogError "SSL enabled but no certificate provided. Use --ssl-cert and --ssl-key, or --ssl-generate"]).
Proof.
  intros Hm Ht Hg Hpair. unfold main. rewrite Hm.
  cbn [String.eqb Ascii.eqb Bool.eqb]. unfold choose_ssl.
  unfold tls_requested in Ht. by rewrite Ht, Hg, Hpair.
Qed.

(** X23: How [main] can end: by returning, with its own exit code 0 or 1, or
    with an exception that passes its [except] clauses.  That exception is
    the [SystemExit] of argparse, a [SystemExit] raised while the server is
    created or run (uvicorn leaves with one when it cannot start) or by the
    stdio loop, or whatever the certificate generation raises, which is
    called outside the [try]. *)
Theorem main_endings (parsed : Z + Args) (env : Env) :
  match fst (main_from_command_line parsed env) with
  | Returned => ∃ a, parsed = inr a
  | Exited c => (c = 0 ∨ c = 1) ∧ ∃ a, parsed = inr a
  | Escaped s =>
      match parsed with
      | inl code => s = SystemExit code
      | inr a =>
          (mode a = "http" ∧ ssl_generate a = true ∧
           generate_self_signed_cert env (host a) = inl s) ∨
          (∃ code, s = SystemExit code ∧
             if String.eqb (mode a) "http"
             then ∃ cfg, fst (serve env (host a) (port a) cfg) = Some (SystemExit code)
             else mcp_run env = Some (SystemExit code))
      end
  end.
Proof.
  destruct parsed as [code | a]; [reflexivity |].
  cbn [main_from_command_line].
  cut (match fst (main a env) with
       | Returned => True
       | Exited c => c = 0 ∨ c = 1
       | Escaped s =>
           (mode a = "http" ∧ ssl_generate a = true ∧
            generate_self_signed_cert env (host a) = inl s) ∨
           (∃ code, s = SystemExit code ∧
              if String.eqb (mode a) "http"
              then ∃ cfg, fst (serve env (host a) (port a) cfg) = Some (SystemExit code)
              else mcp_run env = Some (SystemExit code))
       end).
  { destruct (fst (main a env)); eauto. }
  unfold main. destruct (String.eqb (mode a) "http") eqn:Hm.
  - apply String.eqb_eq in Hm. unfold choose_ssl.
    destruct (ssl a || given (ssl_cert a) || given (ssl_key a) || ssl_generate a).
    + destruct (ssl_generate a && negb (given (ssl_cert a) && given (ssl_key a))) eqn:Hg.
      * apply andb_true_iff in Hg as [Hg _].
        destruct (generate_self_signed_cert env (host a)) as [s | [c k]];
          [cbn [fst]; by left |].
        destruct (start_run a env _ "HTTPS" _ (run_listener_pair (host a) (port a) c k))
          as (_ & _ & He).
        destruct (start a env _ "HTTPS") as [e tr]. cbn [fst] in *.
        destruct e; [done | done |]. destruct He as (code & -> & He). right. eauto.
      * destruct (given (ssl_cert a) && given (ssl_key a)); [| cbn; eauto].
        destruct (start_run a env _ "HTTPS" _
                    (run_listener_pair (host a) (port a)
                       (default "" (ssl_cert a)) (default "" (ssl_key a))))
          as (_ & _ & He).
        destruct (start a env _ "HTTPS") as [e tr]. cbn [fst] in *.
        destruct e; [done | done |]. destruct He as (code & -> & He). right. eauto.
    + destruct (start_run a env None "HTTP" (Plain (host a) (port a)) eq_refl)
        as (_ & _ & He).
      destruct (start a env None "HTTP") as [e tr]. cbn [fst] in *.
      destruct e; [done | done |]. destruct He as (code & -> & He). right. eauto.
  - pose proof (after_try_code "stdio" (mcp_run env)) as Hc.
    destruct (after_try "stdio" (mcp_run env)) as [e tr]. cbn [fst] in *.
    destruct e as [| c | s]; [done | |].
    + destruct Hc as [[-> _] | [-> _]]; eauto.
    + destruct Hc as (code & -> & Hr). right. eauto.
Qed.

(** X24: In stdio mode the TLS options are not looked at: no certificate is
    generated, no HTTP server is created, and [--ssl] without a certificate
    does not end the program. *)
Theorem stdio_ignores_tls_options (a : Args) (env : Env) :
  String.eqb (mode a) "http" = false →
  List.filter is_generated (snd (main a env)) = [] ∧
  List.filter is_created (snd (main a env)) = [] ∧
  List.filter is_served (snd (main a env)) = [] ∧
  fst (main a env) =
    match mcp_run env with
    | None => Returned
    | Some KeyboardInterrupt => Exited 0
    | Some (Failure _) => Exited 1
    | Some (SystemExit code) => Escaped (SystemExit code)
    end.
Proof.
  intros Hm. unfold main. rewrite Hm. by destruct (mcp_run env) as [[|msg|code]|].
Qed.

(** X25: [run] reads [key] and then [cert] from a configuration that is not
    empty: when one of them is not there, the [KeyError] is raised before
    uvicorn is started. *)
Theorem run_needs_both_paths (env : Env) (srv : HTTPMCPServer) (d : gmap string value) :
  srv_ssl_config srv = Some d →
  bool_decide (d = ∅) = false →
  d !! "key" = None ∨ d !! "cert" = None →
  ∃ msg, run env srv = (Some (Failure msg), []).
Proof.
  intros Hd Hne Hmiss. unfold run, run_listener. rewrite Hd, Hne.
  destruct (d !! "key") as [k|]; [| eauto].
  destruct Hmiss as [? | ->]; [done | eauto].
Qed.

End CliFacts.
(** ** The certificate *)

Section SslFacts.

Import Ssl.

Context {P W : Type} (os : Os P W).

Lemma store_calls (cert_path key_path : P) (key_pem cert_pem : string) (w : W) :
  List.filter is_call (snd (fst (store os cert_path key_path key_pem cert_pem w)))
    `prefix_of` [Write key_path key_pem; Write cert_path cert_pem;
                 Chmod key_path 384; Chmod cert_path 420] ∧
  (fst (fst (store os cert_path key_path key_pem cert_pem w)) = None →
   snd (fst (store os cert_path key_path key_pem cert_pem w))
     = [Write key_path key_pem; Write cert_path cert_pem;
        Chmod key_path 384; Chmod cert_path 420]).
Proof.
  unfold store.
  destruct (write_bytes os key_path key_pem w) as [[e|] w1]; cbn.
  { split; [by eexists [_; _; _] | done]. }
  destruct (write_bytes os cert_path cert_pem w1) as [[e|] w2]; cbn.
  { split; [by eexists [_; _] | done]. }
  destruct (chmod os key_path 384 w2) as [[e|] w3]; cbn.
  { split; [by eexists [_] | done]. }
  destruct (chmod os cert_path 420 w3) as [r w4]; cbn.
  split; [by exists [] | done].
Qed.

(** X26: The calls into the file system are always an initial part of one fixed
    sequence: the directory, the key, the certificate, the mode of the key,
    the mode of the certificate.  No other path is touched, and no mode is
    set before both files are written. *)
Theorem cert_operations_in_order (hostname : string) (cert_dir : option string) (w : W) :
  ∃ key_pem cert_pem,
    List.filter is_call (snd (fst (generate_self_signed_cert os hostname cert_dir w)))
    `prefix_of` [Mkdir (cert_dir_of os cert_dir);
                 Write (key_path_of os hostname cert_dir) key_pem;
                 Write (cert_path_of os hostname cert_dir) cert_pem;
                 Chmod (key_path_of os hostname cert_dir) 384;
                 Chmod (cert_path_of os hostname cert_dir) 420].
Proof.
  unfold generate_self_signed_cert.
  destruct (cryptography_installed os); cbn [negb].
  2: { exists "", "". cbn. by eexists. }
  destruct (mkdir_exist_ok os _ w) as [[e|] w1].
  { exists "", "". cbn. by eexists [_; _; _; _]. }
  destruct (path_exists os _ w1 && path_exists os _ w1).
  { exists "", "". cbn. by eexists [_; _; _; _]. }
  destruct (make_material os hostname w1) as [[e | [key_pem cert_pem]] w2].
  { exists "", "". cbn. by eexists [_; _; _; _]. }
  exists key_pem, cert_pem.
  destruct (store_calls (cert_path_of os hostname cert_dir)
              (key_path_of os hostname cert_dir) key_pem cert_pem w2) as [Hp _].
  destruct (store os _ _ key_pem cert_pem w2) as [[[e|] tr] w3];
    cbn [fst snd] in *.
  - rewrite List.filter_app. cbn [List.filter is_call app].
    by apply prefix_cons.
  - rewrite !List.filter_app. cbn [List.filter is_call app]. rewrite app_nil_r.
    by apply prefix_cons.
Qed.

(** X27: A call that returns gives the two paths under the certificate
    directory.  When both files were there, nothing is written and the world
    is as [mkdir] left it; otherwise both files are written, also the one
    that was there, and then the modes are set. *)
Theorem cert_generation_outcomes (hostname : string) (cert_dir : option string) (w : W) :
  match generate_self_signed_cert os hostname cert_dir w with
  | (inr (c, k), tr, w') =>
      c = str_path os (cert_path_of os hostname cert_dir) ∧
      k = str_path os (key_path_of os hostname cert_dir) ∧
      if path_exists os (cert_path_of os hostname cert_dir)
           (snd (mkdir_exist_ok os (cert_dir_of os cert_dir) w))
         && path_exists os (key_path_of os hostname cert_dir)
              (snd (mkdir_exist_ok os (cert_dir_of os cert_dir) w))
      then w' = snd (mkdir_exist_ok os (cert_dir_of os cert_dir) w) ∧
           List.filter is_call tr = [Mkdir (cert_dir_of os cert_dir)]
      else ∃ key_pem cert_pem,
           List.filter is_call tr
           = [Mkdir (cert_dir_of os cert_dir);
              Write (key_path_of os hostname cert_dir) key_pem;
              Write (cert_path_of os hostname cert_dir) cert_pem;
              Chmod (key_path_of os hostname cert_dir) 384;
              Chmod (cert_path_of os hostname cert_dir) 420]
  | (inl _, _, _) => True
  end.
Proof.
  unfold generate_self_signed_cert.
  destruct (cryptography_installed os); cbn [negb]; [| done].
  destruct (mkdir_exist_ok os _ w) as [[e|] w1]; [done |]. cbn [snd].
  destruct (path_exists os _ w1 && path_exists os _ w1); [done |].
  destruct (make_material os hostname w1) as [[e | [key_pem cert_pem]] w2]; [done |].
  destruct (store_calls (cert_path_of os hostname cert_dir)
              (key_path_of os hostname cert_dir) key_pem cert_pem w2) as [_ Hfull].
  destruct (store os _ _ key_pem cert_pem w2) as [[[e|] tr] w3];
    cbn [fst snd] in *; [done |].
  split; [done |]. split; [done |]. exists key_pem, cert_pem.
  by rewrite Hfull.
Qed.

(** X28: When the certificate cannot be written, the key is already on the disk
    and its mode is never set: [chmod] comes after both writes only. *)
Theorem key_unprotected_when_cert_write_fails (hostname : string)
    (cert_dir : option string) (w w1 w2 w3 w4 : W) (key_pem cert_pem e : string) :
  cryptography_installed os = true →
  mkdir_exist_ok os (cert_dir_of os cert_dir) w = (None, w1) →
  path_exists os (cert_path_of os hostname cert_dir) w1
    && path_exists os (key_path_of os hostname cert_dir) w1 = false →
  make_material os hostname w1 = (inr (key_pem, cert_pem), w2) →
  write_bytes os (key_path_of os hostname cert_dir) key_pem w2 = (None, w3) →
  write_bytes os (cert_path_of os hostname cert_dir) cert_pem w3 = (Some e, w4) →
  generate_self_signed_cert os hostname cert_dir w
    = (inl e,
       [Mkdir (cert_dir_of os cert_dir);
        Info ("Generating self-signed certificate for " ++ hostname);
        Write (key_path_of os hostname cert_dir) key_pem;
        Write (cert_path_of os hostname cert_dir) cert_pem],
       w4) ∧
  List.filter is_chmod (snd (fst (generate_self_signed_cert os hostname cert_dir w))) = [].
Proof.
  intros Hc Hm He Hg Hk Hw.
  assert (Hrun : generate_self_signed_cert os hostname cert_dir w
    = (inl e,
       [Mkdir (cert_dir_of os cert_dir);
        Info ("Generating self-signed certificate for " ++ hostname);
        Write (key_path_of os hostname cert_dir) key_pem;
        Write (cert_path_of os hostname cert_dir) cert_pem],
       w4)).
  { unfold generate_self_signed_cert, store. by rewrite Hc, Hm, He, Hg, Hk, Hw. }
  by rewrite Hrun.
Qed.

End SslFacts.

(** ** Concrete runs of the further properties *)

Lemma template_matches_on_base_witness :
  absent "{" "zammad://ticket/" ∧
  _matches_pattern "zammad://ticket/123" ("zammad://ticket/" ++ String "{" "id}/articles")
    = startswith "zammad://ticket/123" "zammad://ticket/".
Proof.
  split; [reflexivity |].
  apply (template_matches_on_base "zammad://ticket/123" "zammad://ticket/" "id}/articles").
  reflexivity.
Defined.

Lemma extract_params_agrees_witness :
  absent "{" "zammad://ticket/" ∧ absent "}" "zammad://ticket/" ∧ absent "}" "id" ∧
  _extract_params "zammad://user/7" ("zammad://ticket/" ++ String "{" ("id" ++ String "}" ""))
  = if _matches_pattern "zammad://user/7"
         ("zammad://ticket/" ++ String "{" ("id" ++ String "}" ""))
    then Ok {[ "id" := slice_from "zammad://user/7" (String.length "zammad://ticket/") ]}
    else Ok ∅.
Proof.
  split; [reflexivity |]. split; [reflexivity |]. split; [reflexivity |].
  apply (extract_params_agrees "zammad://user/7" "zammad://ticket/" "id" "");
    reflexivity.
Defined.

Lemma extract_params_roundtrip_witness :
  absent "{" "zammad://ticket/" ∧ absent "}" "zammad://ticket/" ∧ absent "}" "id" ∧
  _extract_params ("zammad://ticket/" ++ "123")
    ("zammad://ticket/" ++ String "{" ("id" ++ String "}" ""))
  = Ok {[ "id" := "123" ]}.
Proof.
  split; [reflexivity |]. split; [reflexivity |]. split; [reflexivity |].
  apply (extract_params_roundtrip "zammad://ticket/" "id" "" "123"); reflexivity.
Defined.

Lemma extract_params_unclosed_witness :
  contains "zammad://ticket/{id" "{" = true ∧
  absent "}" "zammad://ticket/{id" ∧
  _extract_params "zammad://ticket/123" "zammad://ticket/{id"
  = Raise (ValueError "substring not found").
Proof.
  split; [reflexivity |]. split; [reflexivity |].
  apply (extract_params_unclosed "zammad://ticket/123" "zammad://ticket/{id");
    reflexivity.
Defined.

Lemma extract_params_early_close_witness :
  absent "{" "a" ∧ absent "{" "b/" ∧ absent "}" "a" ∧
  _extract_params (("a" ++ String "}" "b/") ++ "9") (("a" ++ String "}" "b/") ++ String "{" "id}")
  = Ok {[ "" := "9" ]}.
Proof.
  split; [reflexivity |]. split; [reflexivity |]. split; [reflexivity |].
  apply (extract_params_early_close "a" "b/" "id}" "9"); reflexivity.
Defined.

Lemma endpoints_route_alike_witness :
  startswith "resources/read/zammad://ticket/1" "tools/call/" = false ∧
  calls (snd (mcp_stream Sample.core
                {| method := "resources/read/zammad://ticket/1"; params := None |}
                Sample.w0))
  = calls (snd (mcp_call Sample.core
                  {| method := "resources/read/zammad://ticket/1"; params := None |}
                  Sample.w0)).
Proof.
  split; [reflexivity |].
  apply (endpoints_route_alike Sample.core
           {| method := "resources/read/zammad://ticket/1"; params := None |} Sample.w0).
  reflexivity.
Defined.

Lemma tool_call_arguments_witness :
  ({[ "name" := VInt 7; "arguments" := VNone ]} : gmap string value) !! "name"
    = Some (VInt 7) ∧
  truthy (VInt 7) = true ∧
  calls (snd (mcp_call Sample.core
                {| method := "tools/call";
                   params := Some {[ "name" := VInt 7; "arguments" := VNone ]} |}
                Sample.w0))
  = (calls Sample.w0
     ++ [CCallTool (VInt 7)
           (default (VDict ∅)
              (({[ "name" := VInt 7; "arguments" := VNone ]} : gmap string value)
                 !! "arguments"))])%list.
Proof.
  split; [reflexivity |]. split; [reflexivity |].
  apply (tool_call_arguments Sample.core {[ "name" := VInt 7; "arguments" := VNone ]}
           (VInt 7) Sample.w0); reflexivity.
Defined.

Lemma falsy_name_is_missing_witness :
  ({[ "name" := VInt 0 ]} : gmap string value) !! "name" = Some (VInt 0) ∧
  truthy (VInt 0) = false ∧
  calls (snd (mcp_stream Sample.core
                {| method := "tools/call"; params := Some {[ "name" := VInt 0 ]} |}
                Sample.w0))
  = calls Sample.w0.
Proof.
  split; [reflexivity |]. split; [reflexivity |].
  apply (falsy_name_is_missing Sample.core {[ "name" := VInt 0 ]} (VInt 0) Sample.w0);
    reflexivity.
Defined.

Lemma missing_name_logging_witness :
  method {| method := "tools/call"; params := None |} = "tools/call" ∧
  name_missing {| method := "tools/call"; params := None |} = true ∧
  error_log (snd (mcp_stream Sample.core {| method := "tools/call"; params := None |}
                    Sample.w0))
  = error_log Sample.w0.
Proof.
  split; [reflexivity |]. split; [reflexivity |].
  apply (missing_name_logging Sample.core {| method := "tools/call"; params := None |}
           Sample.w0); reflexivity.
Defined.

Lemma stream_unknown_method_witness :
  router_table (method {| method := "unknown/x"; params := None |}) = None ∧
  startswith (method {| method := "unknown/x"; params := None |}) "tools/call/" = false ∧
  calls (snd (mcp_stream Sample.core {| method := "unknown/x"; params := None |}
                Sample.w0))
  = calls Sample.w0.
Proof.
  split; [reflexivity |]. split; [reflexivity |].
  apply (stream_unknown_method Sample.core {| method := "unknown/x"; params := None |}
           Sample.w0); reflexivity.
Defined.

Lemma tool_call_stream_result_witness :
  (({[ "name" := VStr "whoami" ]} : gmap string value) !! "name" = Some (VStr "whoami") ∧
   truthy (VStr "whoami") = true ∧
   fst (call_tool Sample2.core (VStr "whoami")
          (default (VDict ∅) (({[ "name" := VStr "whoami" ]} : gmap string value)
                                !! "arguments"))
          (snd (uuid4 Sample2.core (core_state Sample.w0)))) = Ok Sample2.user_object ∧
   fst (mcp_stream Sample2.core
          {| method := "tools/call"; params := Some {[ "name" := VStr "whoami" ]} |}
          Sample.w0)
   = [ connected_event "session-0";
       {| ev_type := Result; ev_data := VDict {[ "login" := VStr "agent" ]} |};
       done_event ]) ∧
  (({[ "name" := VStr "ping" ]} : gmap string value) !! "name" = Some (VStr "ping") ∧
   truthy (VStr "ping") = true ∧
   fst (call_tool Sample.core (VStr "ping")
          (default (VDict ∅) (({[ "name" := VStr "ping" ]} : gmap string value)
                                !! "arguments"))
          (snd (uuid4 Sample.core (core_state Sample.w0)))) = Ok VNone ∧
   json_encodable VNone = true ∧
   fst (mcp_stream Sample.core
          {| method := "tools/call"; params := Some {[ "name" := VStr "ping" ]} |}
          Sample.w0)
   = [ connected_event "session-0"; {| ev_type := Result; ev_data := VNone |};
       done_event ]).
Proof.
  split.
  - split; [reflexivity |]. split; [reflexivity |]. split; [reflexivity |].
    exact (proj2 (tool_call_stream_result Sample2.core {[ "name" := VStr "whoami" ]}
                    (VStr "whoami") Sample2.user_object Sample.w0
                    eq_refl eq_refl eq_refl)).
  - split; [reflexivity |]. split; [reflexivity |]. split; [reflexivity |].
    split; [reflexivity |].
    exact (proj1 (tool_call_stream_result Sample.core {[ "name" := VStr "ping" ]}
                    (VStr "ping") VNone Sample.w0 eq_refl eq_refl eq_refl) eq_refl).
Defined.

Lemma legacy_stream_unencodable_result_witness :
  contains "whoami" "tools/call/" = false ∧
  fst (call_tool Sample2.core (VStr "whoami") (VDict (params_or_empty None))
         (snd (uuid4 Sample2.core (core_state Sample.w0)))) = Ok Sample2.user_object ∧
  json_encodable (dump_model Sample2.user_object) = false ∧
  map ev_type (fst (mcp_stream Sample2.core
                      {| method := "tools/call/" ++ "whoami"; params := None |}
                      Sample.w0))
  = [Connected; Error].
Proof.
  split; [reflexivity |]. split; [reflexivity |]. split; [reflexivity |].
  apply (legacy_stream_unencodable_result Sample2.core "whoami" None
           Sample2.user_object Sample.w0); reflexivity.
Defined.

Lemma resources_list_projection_witness :
  list_resources Sample2.core (core_state Sample.w0)
    = (Ok [ {| resource_uri := VStr "zammad://queue/1"; resource_name := VNone;
               resource_description := VStr ""; resource_mimeType := VStr "" |} ], O) ∧
  fst (_list_resources Sample2.core Sample.w0)
    = Ok (VDict {[ "resources" := VList [
            VDict {[ "uri" := VStr "zammad://queue/1"; "name" := VStr "";
                     "description" := VStr ""; "mimeType" := VStr "text/plain" ]} ] ]}).
Proof.
  split; [reflexivity |].
  exact (proj1 (resources_list_projection Sample2.core Sample.w0 _ O eq_refl)).
Defined.

Lemma prompts_list_projection_witness :
  list_prompts Sample2.core (core_state Sample.w0)
    = (Ok [ {| prompt_name := VStr "summarize"; prompt_description := VNone;
               prompt_arguments := None |} ], O) ∧
  fst (_list_prompts Sample2.core Sample.w0)
    = Ok (VDict {[ "prompts" := VList [
            VDict {[ "name" := VStr "summarize"; "description" := VStr "";
                     "arguments" := VList [] ]} ] ]}).
Proof.
  split; [reflexivity |].
  exact (proj1 (prompts_list_projection Sample2.core Sample.w0 _ O eq_refl)).
Defined.

Lemma tls_exactly_when_requested_witness :
  Cli.mode Cli.plain_args = "http" ∧
  (List.filter Cli.is_served (snd (Cli.main Cli.plain_args Cli.quiet_env)) = [] ∨
   ∃ l, List.filter Cli.is_served (snd (Cli.main Cli.plain_args Cli.quiet_env))
          = [Cli.Served l] ∧
        if Cli.tls_requested Cli.plain_args
        then ∃ k c, l = Cli.Tls (Cli.host Cli.plain_args) (Cli.port Cli.plain_args)
                          (VStr k) (VStr c)
        else l = Cli.Plain (Cli.host Cli.plain_args) (Cli.port Cli.plain_args)).
Proof.
  split; [reflexivity |].
  apply (tls_exactly_when_requested Cli.plain_args Cli.quiet_env). reflexivity.
Defined.

Lemma provided_pair_wins_witness :
  Cli.mode (Cli.witness_args false true (Some "c.pem") (Some "k.pem")) = "http" ∧
  Cli.ssl_cert (Cli.witness_args false true (Some "c.pem") (Some "k.pem")) = Some "c.pem" ∧
  "c.pem" ≠ "" ∧
  Cli.ssl_key (Cli.witness_args false true (Some "c.pem") (Some "k.pem")) = Some "k.pem" ∧
  "k.pem" ≠ "" ∧
  List.filter Cli.is_generated
    (snd (Cli.main (Cli.witness_args false true (Some "c.pem") (Some "k.pem")) Cli.quiet_env))
  = [].
Proof.
  split; [reflexivity |]. split; [reflexivity |]. split; [discriminate |].
  split; [reflexivity |]. split; [discriminate |].
  refine (proj1 (provided_pair_wins (Cli.witness_args false true (Some "c.pem") (Some "k.pem"))
                   Cli.quiet_env "c.pem" "k.pem" eq_refl eq_refl _ eq_refl _));
    discriminate.
Defined.

Lemma generated_pair_used_witness :
  Cli.mode (Cli.witness_args false true (Some "c.pem") None) = "http" ∧
  Cli.ssl_generate (Cli.witness_args false true (Some "c.pem") None) = true ∧
  Cli.given (Cli.ssl_cert (Cli.witness_args false true (Some "c.pem") None))
    && Cli.given (Cli.ssl_key (Cli.witness_args false true (Some "c.pem") None)) = false ∧
  Cli.main (Cli.witness_args false true (Some "c.pem") None) Cli.broken_env
  = (Cli.Escaped (Cli.Failure "cryptography package required for SSL certificate generation"),
     [Cli.Generated "0.0.0.0"]).
Proof.
  split; [reflexivity |]. split; [reflexivity |]. split; [reflexivity |].
  exact (generated_pair_used (Cli.witness_args false true (Some "c.pem") None)
           Cli.broken_env eq_refl eq_refl eq_refl).
Defined.

Lemma tls_without_material_exits_witness :
  Cli.mode (Cli.witness_args true false None None) = "http" ∧
  Cli.tls_requested (Cli.witness_args true false None None) = true ∧
  Cli.ssl_generate (Cli.witness_args true false None None) = false ∧
  Cli.given (Cli.ssl_cert (Cli.witness_args true false None None))
    && Cli.given (Cli.ssl_key (Cli.witness_args true false None None)) = false ∧
  fst (Cli.main (Cli.witness_args true false None None) Cli.quiet_env) = Cli.Exited 1.
Proof.
  split; [reflexivity |]. split; [reflexivity |]. split; [reflexivity |].
  split; [reflexivity |].
  rewrite (tls_without_material_exits (Cli.witness_args true false None None) Cli.quiet_env);
    reflexivity.
Defined.

(** A [SystemExit] of uvicorn or of argparse leaves [main] with its own
    code. *)
Example system_exit_ex :
  fst (Cli.main_from_command_line (inr Cli.plain_args) Cli.exiting_env)
    = Cli.Escaped (Cli.SystemExit 3) ∧
  fst (Cli.main_from_command_line (inr Cli.stdio_args) Cli.exiting_env)
    = Cli.Escaped (Cli.SystemExit 3) ∧
  Cli.main_from_command_line (inl 2) Cli.quiet_env = (Cli.Escaped (Cli.SystemExit 2), []).
Proof. vm_compute. repeat split. Qed.

Lemma stdio_ignores_tls_options_witness :
  String.eqb (Cli.mode Cli.stdio_args) "http" = false ∧
  fst (Cli.main Cli.stdio_args Cli.quiet_env) = Cli.Returned.
Proof.
  split; [reflexivity |].
  apply (stdio_ignores_tls_options Cli.stdio_args Cli.quiet_env). reflexivity.
Defined.

Lemma run_needs_both_paths_witness :
  Cli.srv_ssl_config {| Cli.srv_host := "h"; Cli.srv_port := 1;
                        Cli.srv_ssl_config := Some {[ "cert" := VStr "c.pem" ]} |}
    = Some {[ "cert" := VStr "c.pem" ]} ∧
  bool_decide (({[ "cert" := VStr "c.pem" ]} : gmap string value) = ∅) = false ∧
  (({[ "cert" := VStr "c.pem" ]} : gmap string value) !! "key" = None
   ∨ ({[ "cert" := VStr "c.pem" ]} : gmap string value) !! "cert" = None) ∧
  ∃ msg, Cli.run Cli.quiet_env
           {| Cli.srv_host := "h"; Cli.srv_port := 1;
              Cli.srv_ssl_config := Some {[ "cert" := VStr "c.pem" ]} |}
         = (Some (Cli.Failure msg), []).
Proof.
  split; [reflexivity |]. split; [reflexivity |]. split; [left; reflexivity |].
  apply (run_needs_both_paths Cli.quiet_env _ {[ "cert" := VStr "c.pem" ]});
    [reflexivity | reflexivity | left; reflexivity].
Defined.

Lemma key_unprotected_witness :
  Ssl.cryptography_installed (Ssl.mem_os true) = true ∧
  Ssl.generate_self_signed_cert (Ssl.mem_os true) "localhost" None ∅
  = (inl "No space left on device",
     [Ssl.Mkdir "/srv/.certs";
      Ssl.Info "Generating self-signed certificate for localhost";
      Ssl.Write "/srv/.certs/localhost.key" "KEY localhost";
      Ssl.Write "/srv/.certs/localhost.crt" "CERT localhost"],
     {[ "/srv/.certs/localhost.key" := ("KEY localhost", 420) ]}).
Proof.
  split; [reflexivity |].
  refine (proj1 (key_unprotected_when_cert_write_fails (Ssl.mem_os true) "localhost" None
                   ∅ ∅ ∅ {[ "/srv/.certs/localhost.key" := ("KEY localhost", 420) ]}
                   {[ "/srv/.certs/localhost.key" := ("KEY localhost", 420) ]}
                   "KEY localhost" "CERT localhost" "No space left on device"
                   eq_refl eq_refl eq_refl eq_refl _ _)); vm_compute; reflexivity.
Defined.
